(** * ModelOperatorBigQueryLocation: the BigQuery ML model adapter

    A shallow embedding of
    [src/service_implementations/model/bigquery_base.py] and the
    properties of its operations [instantiate_model], [fit], [predict],
    [save], [load] and [get_train_metrics].

    Python text is a Rocq [string]; the only text operations of the
    adapter are concatenation (f-strings, [str.format], [str.join]),
    equality and [str.lower]. *)

From Stdlib Require Import String Ascii List Bool ZArith DecimalString.
From Stdlib Require Import Arith Lia.
Import ListNotations.
Open Scope string_scope.

Set Implicit Arguments.

(** ** Python values *)

Module Py.

(** The values the adapter stores and formats: what a caller passes
    as an option ([None], booleans, integers, floats, text) and the
    column list that [fit] stores.  A float is carried as the text
    [repr] gives for it: the adapter only ever formats it. *)
Inductive value : Type :=
| VNone
| VBool (b : bool)
| VInt (z : Z)
| VFloat (repr : string)
| VStr (s : string)
| VList (l : list string).

(** The exceptions that can leave an operation.  [JobError] is
    whatever the warehouse client raises. *)
Inductive exn : Type :=
| AttributeError (name : string)
| KeyError (key : string)
| IndexError
| TypeError
| JobError (msg : string).

(** [isinstance(value, str)] *)
Definition is_str (v : value) : bool :=
  match v with VStr _ => true | _ => false end.

(** [str.lower].  Text is a sequence of bytes here, and the letters
    that change are the ASCII capitals; the bytes of a character
    outside ASCII are left alone, and no such character lowers to
    text made of the letters of [data_split_method], the one text a
    lowered key is compared with. *)
Definition lower_ascii (c : ascii) : ascii :=
  let n := nat_of_ascii c in
  if (65 <=? n)%nat && (n <=? 90)%nat then ascii_of_nat (n + 32) else c.

Fixpoint lower (s : string) : string :=
  match s with
  | EmptyString => EmptyString
  | String c r => String (lower_ascii c) (lower r)
  end.

(** [x in l] for a list of strings. *)
Definition str_in (x : string) (l : list string) : bool :=
  existsb (String.eqb x) l.

(** [sep.join(l)] *)
Definition join (sep : string) (l : list string) : string :=
  String.concat sep l.

(** [str(z)] for an integer. *)
Definition str_int (z : Z) : string :=
  NilZero.string_of_int (Z.to_int z).

(** [repr(s)] for text: the quote is the double quote when the text
    has a single quote and no double quote, the single quote
    otherwise; the quote and the backslash are escaped, and so are
    the control characters. *)
Definition hex_digit (n : nat) : ascii :=
  if (n <? 10)%nat then ascii_of_nat (48 + n) else ascii_of_nat (87 + n).

Fixpoint has_char (c : ascii) (s : string) : bool :=
  match s with
  | EmptyString => false
  | String d r => Ascii.eqb c d || has_char c r
  end.

Definition dquote : ascii := ascii_of_nat 34.

Definition repr_quote (s : string) : ascii :=
  if has_char "'"%char s && negb (has_char dquote s)
  then dquote else "'"%char.

Definition repr_char (q c : ascii) : string :=
  let n := nat_of_ascii c in
  if Ascii.eqb c q || Ascii.eqb c "\"%char then String "\" (String c EmptyString)
  else if (n =? 9)%nat then "\t"
  else if (n =? 10)%nat then "\n"
  else if (n =? 13)%nat then "\r"
  else if (n <? 32)%nat || (n =? 127)%nat
       then String "\" (String "x" (String (hex_digit (n / 16))
                                      (String (hex_digit (n mod 16)) EmptyString)))
  else String c EmptyString.

Fixpoint repr_body (q : ascii) (s : string) : string :=
  match s with
  | EmptyString => EmptyString
  | String c r => repr_char q c ++ repr_body q r
  end.

Definition repr_str (s : string) : string :=
  let q := repr_quote s in
  String q (repr_body q s ++ String q EmptyString).

(** [str(v)], which is what an f-string or [str.format] puts in the
    place of [{v}]. *)
Definition str (v : value) : string :=
  match v with
  | VNone => "None"
  | VBool true => "True"
  | VBool false => "False"
  | VInt z => str_int z
  | VFloat r => r
  | VStr s => s
  | VList l => "[" ++ join ", " (map repr_str l) ++ "]"
  end.

(** [v[0]] *)
Definition subscript0 (v : value) : exn + value :=
  match v with
  | VList (x :: _) => inr (VStr x)
  | VList [] => inl IndexError
  | VStr (String c _) => inr (VStr (String c EmptyString))
  | VStr EmptyString => inl IndexError
  | _ => inl TypeError
  end.

(** *** Dictionaries

    A [dict] keeps its keys in the order they were first inserted,
    and the adapter iterates over it, so it is an association list. *)
Definition dict : Type := list (string * value).

Definition keys (d : dict) : list string := map fst d.

(** [d[k]] *)
Fixpoint get (d : dict) (k : string) : option value :=
  match d with
  | [] => None
  | (k', v) :: r => if String.eqb k k' then Some v else get r k
  end.

(** [d[k] = v]: the value is replaced where the key is, a new key goes
    last. *)
Fixpoint set (d : dict) (k : string) (v : value) : dict :=
  match d with
  | [] => [(k, v)]
  | (k', v') :: r =>
      if String.eqb k k' then (k', v) :: r else (k', v') :: set r k v
  end.

End Py.

Import Py.

(** ** Statement templates

    A template is the text of the class attribute cut at its
    replacement fields; [format] is [str.format] called with keyword
    arguments, which puts [str] of the argument in the place of each
    field and raises [KeyError] for a field without argument. *)

Inductive segment : Type :=
| Lit (text : string)
| Field (name : string).

Definition template : Type := list segment.

Fixpoint format (t : template) (args : dict) : exn + string :=
  match t with
  | [] => inr EmptyString
  | Lit text :: r =>
      match format r args with
      | inr rest => inr (text ++ rest)
      | inl e => inl e
      end
  | Field name :: r =>
      match Py.get args name with
      | Some v =>
          match format r args with
          | inr rest => inr (str v ++ rest)
          | inl e => inl e
          end
      | None => inl (KeyError name)
      end
  end.

(** The line feed of the triple-quoted literals. *)
Definition nl : string := String (ascii_of_nat 10) EmptyString.

Definition create_model_query : template :=
  [ Lit (nl ++ "CREATE OR REPLACE MODEL `"); Field "sql_model_path";
    Lit ("`" ++ nl ++ "OPTIONS (" ++ nl); Field "options";
    Lit (")" ++ nl ++ "AS (" ++ nl ++ "    WITH train_query AS (");
    Field "train_query";
    Lit (")," ++ nl ++ "         eval_data AS ("); Field "eval_data";
    Lit (")" ++ nl
         ++ "    SELECT *, false as is_eval FROM train_query UNION ALL " ++ nl
         ++ "    SELECT *, true as is_eval FROM eval_data" ++ nl
         ++ ")" ++ nl) ].

Definition predict_query : template :=
  [ Lit (nl ++ "SELECT "); Field "id_column"; Lit ", predicted_";
    Field "target_column"; Lit " FROM ML.PREDICT(MODEL `";
    Field "sql_model_path"; Lit "`, ("; Field "predict_query";
    Lit ("))" ++ nl) ].

Definition train_metric_query : template :=
  [ Lit (nl ++ "SELECT * FROM ML.TRAINING_INFO(MODEL `");
    Field "sql_model_path";
    Lit ("`) ORDER BY iteration" ++ nl ++ "    ") ].

Definition train_feature_importance_query : template :=
  [ Lit (nl ++ "SELECT * FROM ML.FEATURE_IMPORTANCE (MODEL `");
    Field "sql_model_path"; Lit ("`)" ++ nl ++ "    ") ].

Definition job_id_prefix : string := "mlflow_model_".

(** ** Collaborators *)

(** The location descriptor, [helpers.bigquery_location.BigQueryLocation]:
    the five attributes the adapter reads and passes, in the order of
    the constructor's positional arguments. *)
Record BigQueryLocation : Type := {
  columns : list string;
  id_column : string;
  table : string;
  order : value;
  limit : value
}.

Module TableReference.
(** [query_job.destination] *)
Record t : Type := {
  project : string;
  dataset_id : string;
  table_id : string
}.
End TableReference.

(** A result row: its named fields.  [row.name] raises
    [AttributeError] for a name the row does not have. *)
Definition Row : Type := dict.

Definition row_attr (row : Row) (name : string) : exn + value :=
  match Py.get row name with
  | Some v => inr v
  | None => inl (AttributeError name)
  end.

(** The handle of a finished job. *)
Record QueryJob : Type := {
  result : list Row;
  destination : TableReference.t
}.

(** What was handed to the warehouse: the statement and the
    [job_id_prefix] keyword argument. *)
Record Job : Type := {
  sql : string;
  prefix : string
}.

(** ** The adapter *)

(** The attributes of an instance.  [__init__] sets [project] and
    [dataset]; the others do not exist until [instantiate_model] sets
    them, and reading one before that raises [AttributeError].  The
    client handle of [__init__] is the warehouse of the section
    below. *)
Record ModelOperator : Type := {
  project : value;
  dataset : value;
  model_id : option value;
  model_version : option value;
  model_id_version : option string;
  sql_model_path : option string;
  kwargs : option dict
}.

Definition init (project dataset : value) : ModelOperator :=
  {| project := project; dataset := dataset;
     model_id := None; model_version := None; model_id_version := None;
     sql_model_path := None; kwargs := None |}.

Definition with_model_id (v : value) (s : ModelOperator) : ModelOperator :=
  {| project := project s; dataset := dataset s;
     model_id := Some v; model_version := model_version s;
     model_id_version := model_id_version s;
     sql_model_path := sql_model_path s; kwargs := kwargs s |}.

Definition with_model_version (v : value) (s : ModelOperator) : ModelOperator :=
  {| project := project s; dataset := dataset s;
     model_id := model_id s; model_version := Some v;
     model_id_version := model_id_version s;
     sql_model_path := sql_model_path s; kwargs := kwargs s |}.

Definition with_model_id_version (v : string) (s : ModelOperator) : ModelOperator :=
  {| project := project s; dataset := dataset s;
     model_id := model_id s; model_version := model_version s;
     model_id_version := Some v;
     sql_model_path := sql_model_path s; kwargs := kwargs s |}.

Definition with_sql_model_path (v : string) (s : ModelOperator) : ModelOperator :=
  {| project := project s; dataset := dataset s;
     model_id := model_id s; model_version := model_version s;
     model_id_version := model_id_version s;
     sql_model_path := Some v; kwargs := kwargs s |}.

Definition with_kwargs (v : dict) (s : ModelOperator) : ModelOperator :=
  {| project := project s; dataset := dataset s;
     model_id := model_id s; model_version := model_version s;
     model_id_version := model_id_version s;
     sql_model_path := sql_model_path s; kwargs := Some v |}.

(** The adapter together with everything it has submitted so far. *)
Record World : Type := {
  self : ModelOperator;
  submitted : list Job
}.

(** *** Operations as state transformers that may raise

    An exception does not undo the assignments made before it, so the
    state comes back in both cases. *)
Definition M (A : Type) : Type := World -> (exn + A) * World.

Definition ret {A} (a : A) : M A := fun w => (inr a, w).

Definition raise {A} (e : exn) : M A := fun w => (inl e, w).

Definition bind {A B} (m : M A) (k : A -> M B) : M B :=
  fun w =>
    match m w with
    | (inr a, w') => k a w'
    | (inl e, w') => (inl e, w')
    end.

Definition lift {A} (r : exn + A) : M A := fun w => (r, w).

Notation "x <- m ;; k" := (bind m (fun x => k))
  (at level 61, m at next level, right associativity).
Notation "m ;;; k" := (bind m (fun _ => k))
  (at level 61, right associativity).

(** [self.name], read and assigned. *)
Definition getattr {A} (name : string) (field : ModelOperator -> option A)
  : M A :=
  fun w =>
    match field (self w) with
    | Some a => (inr a, w)
    | None => (inl (AttributeError name), w)
    end.

(** The same for an attribute that [__init__] has set. *)
Definition attr {A} (field : ModelOperator -> A) : M A :=
  fun w => (inr (field (self w)), w).

Definition setattr (update : ModelOperator -> ModelOperator) : M unit :=
  fun w => (inr tt, {| self := update (self w); submitted := submitted w |}).

(** [self.kwargs[key] = v] *)
Definition kwargs_setitem (key : string) (v : value) : M unit :=
  kw <- getattr "kwargs" kwargs ;;
  setattr (with_kwargs (Py.set kw key v)).

(** [self.kwargs[key]] *)
Definition kwargs_getitem (key : string) : M value :=
  kw <- getattr "kwargs" kwargs ;;
  match Py.get kw key with
  | Some v => ret v
  | None => raise (KeyError key)
  end.

Section Adapter.

(** [location.get_select_query(include_id)]: the text of the [SELECT]
    statement of a location descriptor.  The class is not in the
    source tree, so the rendering is any function of the descriptor
    and the flag; without argument the flag is false. *)
Variable get_select_query : BigQueryLocation -> bool -> string.

(** The value of [limit] in a descriptor built without one. *)
Variable default_limit : value.

(** The warehouse: given what was submitted before and the job, the
    handle of the finished job or the exception of the client. *)
Variable warehouse : list Job -> Job -> exn + QueryJob.

(** Modelled from the spec: [run_query_and_wait] of the mixin
    [mixin.bigquery_mixin.BigQueryMixin], which is not in the source
    tree.  It submits the statement as a job with the given prefix,
    blocks until completion and returns the job handle; the adapter's
    attributes are not touched. *)
Definition run_query_and_wait (query job_id_prefix : string) : M QueryJob :=
  fun w =>
    let job := {| sql := query; prefix := job_id_prefix |} in
    (warehouse (submitted w) job,
     {| self := self w; submitted := submitted w ++ [job] |}).

Definition instantiate_model (model_id' model_version' : value)
  (kwargs' : dict) : M unit :=
  setattr (with_model_id model_id') ;;;
  setattr (with_model_version model_version') ;;;
  id <- getattr "model_id" model_id ;;
  version <- getattr "model_version" model_version ;;
  setattr (with_model_id_version (str id ++ "_" ++ str version)) ;;;
  project' <- attr project ;;
  dataset' <- attr dataset ;;
  id_version <- getattr "model_id_version" model_id_version ;;
  setattr (with_sql_model_path
             (str project' ++ "." ++ str dataset' ++ "." ++ id_version)) ;;;
  setattr (with_kwargs kwargs') ;;;
  if negb (str_in (lower "data_split_method") (map lower (keys kwargs')))
  then
    kwargs_setitem "data_split_method" (VStr "CUSTOM") ;;;
    kwargs_setitem "data_split_col" (VStr "is_eval")
  else ret tt.

(** One entry of the options clause, as the f-string of [fit] writes
    it. *)
Definition option_entry (quote : string) (entry : string * value) : string :=
  let (key, value) := entry in
  key ++ "="
  ++ (if is_str value then quote else EmptyString)
  ++ str value
  ++ (if is_str value then quote else EmptyString).

Definition fit (train_x train_y eval_x eval_y : BigQueryLocation) : M unit :=
  kwargs_setitem "input_label_cols" (VList (columns train_y)) ;;;
  let quote := "'" in
  kw <- getattr "kwargs" kwargs ;;
  let options := join ("," ++ nl) (map (option_entry quote) kw) in
  let train_data_location :=
    {| columns := columns train_x ++ columns train_y;
       id_column := id_column train_x;
       table := table train_x;
       order := order train_x;
       limit := limit train_x |} in
  let eval_data_location :=
    {| columns := columns eval_x ++ columns eval_y;
       id_column := id_column eval_x;
       table := table eval_x;
       order := order eval_x;
       limit := limit eval_x |} in
  path <- getattr "sql_model_path" sql_model_path ;;
  query <- lift (format create_model_query
                   [ ("train_query",
                      VStr (get_select_query train_data_location false));
                     ("eval_data",
                      VStr (get_select_query eval_data_location false));
                     ("sql_model_path", VStr path);
                     ("options", VStr options) ]) ;;
  query_job <- run_query_and_wait query job_id_prefix ;;
  ret tt.

Definition predict (data : BigQueryLocation) : M BigQueryLocation :=
  label_cols <- kwargs_getitem "input_label_cols" ;;
  target_column <- lift (subscript0 label_cols) ;;
  path <- getattr "sql_model_path" sql_model_path ;;
  query <- lift (format predict_query
                   [ ("id_column", VStr (id_column data));
                     ("target_column", target_column);
                     ("sql_model_path", VStr path);
                     ("predict_query", VStr (get_select_query data true)) ]) ;;
  query_job <- run_query_and_wait query job_id_prefix ;;
  let destination := destination query_job in
  let destination_location :=
    {| columns := ["predicted_" ++ str target_column];
       id_column := id_column data;
       table := TableReference.project destination ++ "."
                ++ TableReference.dataset_id destination ++ "."
                ++ TableReference.table_id destination;
       order := order data;
       limit := default_limit |} in
  ret destination_location.

Definition save (folder_path : value) : M unit := ret tt.

Definition load (folder_path : value) : M unit := ret tt.

(** One element of the list [get_train_metrics] returns: the
    dictionary with the keys [metrics] and [step]. *)
Record MetricsStruct : Type := {
  metrics : dict;
  step : value
}.

(** The body of the loop over the rows. *)
Definition metrics_struct (row : Row) : exn + MetricsStruct :=
  match row_attr row "loss" with
  | inl e => inl e
  | inr loss =>
  match row_attr row "eval_loss" with
  | inl e => inl e
  | inr eval_loss =>
  match row_attr row "duration_ms" with
  | inl e => inl e
  | inr duration_ms =>
  match row_attr row "learning_rate" with
  | inl e => inl e
  | inr learning_rate =>
  let row_metric :=
    [ ("loss", loss); ("eval_loss", eval_loss);
      ("duration_ms", duration_ms); ("learning_rate", learning_rate) ] in
  match row_attr row "iteration" with
  | inl e => inl e
  | inr iteration =>
      inr {| metrics := row_metric; step := iteration |}
  end end end end end.

Fixpoint collect_metrics (rows : list Row)
  (metrics_struct_list : list MetricsStruct) : exn + list MetricsStruct :=
  match rows with
  | [] => inr metrics_struct_list
  | row :: rest =>
      match metrics_struct row with
      | inl e => inl e
      | inr m => collect_metrics rest (metrics_struct_list ++ [m])
      end
  end.

Definition get_train_metrics : M (list MetricsStruct) :=
  let metrics_struct_list := [] in
  path <- getattr "sql_model_path" sql_model_path ;;
  query <- lift (format train_metric_query [ ("sql_model_path", VStr path) ]) ;;
  query_job <- run_query_and_wait query job_id_prefix ;;
  let rows := result query_job in
  lift (collect_metrics rows metrics_struct_list).

End Adapter.

(** ** Clients

    A client of an adapter calls its operations one after the other;
    an exception that leaves one of them does not end the adapter,
    which stays as the operation left it. *)
Inductive call : Type :=
| CallInstantiateModel (model_id model_version : value) (kwargs : dict)
| CallFit (train_x train_y eval_x eval_y : BigQueryLocation)
| CallPredict (data : BigQueryLocation)
| CallSave (folder_path : value)
| CallLoad (folder_path : value)
| CallGetTrainMetrics.

Section Client.

Variable get_select_query : BigQueryLocation -> bool -> string.
Variable default_limit : value.
Variable warehouse : list Job -> Job -> exn + QueryJob.

Definition run_call (c : call) (w : World) : World :=
  match c with
  | CallInstantiateModel id version options =>
      snd (instantiate_model id version options w)
  | CallFit train_x train_y eval_x eval_y =>
      snd (fit get_select_query warehouse train_x train_y eval_x eval_y w)
  | CallPredict data =>
      snd (predict get_select_query default_limit warehouse data w)
  | CallSave folder_path => snd (save folder_path w)
  | CallLoad folder_path => snd (load folder_path w)
  | CallGetTrainMetrics => snd (get_train_metrics warehouse w)
  end.

Definition run_calls (calls : list call) (w : World) : World :=
  fold_left (fun w c => run_call c w) calls w.

(** [ModelOperatorBigQueryLocation(project, dataset)] *)
Definition created (project dataset : value) : World :=
  {| self := init project dataset; submitted := [] |}.

End Client.

(** ** The statements, written out

    Each template with its fields filled, as one text, and the jobs
    the operations make of them. *)

Definition create_model_text (path options train_query eval_data : string)
  : string :=
  nl ++ "CREATE OR REPLACE MODEL `" ++ path ++ "`" ++ nl
  ++ "OPTIONS (" ++ nl ++ options ++ ")" ++ nl
  ++ "AS (" ++ nl
  ++ "    WITH train_query AS (" ++ train_query ++ ")," ++ nl
  ++ "         eval_data AS (" ++ eval_data ++ ")" ++ nl
  ++ "    SELECT *, false as is_eval FROM train_query UNION ALL " ++ nl
  ++ "    SELECT *, true as is_eval FROM eval_data" ++ nl
  ++ ")" ++ nl.

Definition predict_text (id target path select : string) : string :=
  nl ++ "SELECT " ++ id ++ ", predicted_" ++ target
  ++ " FROM ML.PREDICT(MODEL `" ++ path ++ "`, (" ++ select ++ "))" ++ nl.

Definition train_metric_text (path : string) : string :=
  nl ++ "SELECT * FROM ML.TRAINING_INFO(MODEL `" ++ path
  ++ "`) ORDER BY iteration" ++ nl ++ "    ".

(** The descriptor [fit] builds for one split: the columns of the
    features followed by those of the labels, everything else from the
    features. *)
Definition data_location (x y : BigQueryLocation) : BigQueryLocation :=
  {| columns := columns x ++ columns y;
     id_column := id_column x;
     table := table x;
     order := order x;
     limit := limit x |}.

Section Jobs.

Variable get_select_query : BigQueryLocation -> bool -> string.

(** The job [fit] submits from a configuration [kw] and a model path:
    the label columns are stored first, so they are part of the
    options. *)
Definition fit_job (kw : dict) (path : string)
  (train_x train_y eval_x eval_y : BigQueryLocation) : Job :=
  {| sql :=
       create_model_text path
         (join ("," ++ nl)
            (map (option_entry "'")
               (Py.set kw "input_label_cols" (VList (columns train_y)))))
         (get_select_query (data_location train_x train_y) false)
         (get_select_query (data_location eval_x eval_y) false);
     prefix := job_id_prefix |}.

Definition predict_job (path : string) (data : BigQueryLocation)
  (target_column : value) : Job :=
  {| sql := predict_text (id_column data) (str target_column) path
              (get_select_query data true);
     prefix := job_id_prefix |}.

End Jobs.

Definition train_metric_job (path : string) : Job :=
  {| sql := train_metric_text path; prefix := job_id_prefix |}.

(** *** The words of the specification *)

(** An option as the specification renders it: text between single
    quotes, anything else as it prints. *)
Definition rendered_option (entry : string * value) : string :=
  match snd entry with
  | VStr s => fst entry ++ "='" ++ s ++ "'"
  | v => fst entry ++ "=" ++ str v
  end.

(** The fields of a row of [ML.TRAINING_INFO] that the adapter
    reads. *)
Definition training_fields : list string :=
  ["loss"; "eval_loss"; "duration_ms"; "learning_rate"; "iteration"].

Definition has_field (row : Row) (name : string) : bool :=
  match Py.get row name with Some _ => true | None => false end.

Definition iteration_row (row : Row) : bool :=
  forallb (has_field row) training_fields.

(** A row and the metric record made of it: the step is the row's
    iteration, the metrics are the four named fields of the row. *)
Definition metric_of_row (row : Row) (m : MetricsStruct) : Prop :=
  Py.get row "iteration" = Some (step m) /\
  keys (metrics m) = ["loss"; "eval_loss"; "duration_ms"; "learning_rate"] /\
  forall name, In name (keys (metrics m)) ->
               Py.get (metrics m) name = Py.get row name.

(** Every job of a list carries the fixed prefix. *)
Definition all_prefixed (jobs : list Job) : Prop :=
  Forall (fun job => prefix job = "mlflow_model_") jobs.

(** The calls whose operation hands a statement to the warehouse. *)
Definition submitting (c : call) : bool :=
  match c with
  | CallFit _ _ _ _ => true
  | CallPredict _ => true
  | CallGetTrainMetrics => true
  | _ => false
  end.

(** The first field a row lacks, in the order the loop of
    [get_train_metrics] reads them. *)
Definition first_missing_field (row : Row) : option string :=
  find (fun name => negb (has_field row name)) training_fields.

(** ** A concrete setting

    One rendering of the descriptors, two warehouses and a few
    descriptors, on which the operations can be run. *)
Module Sample.

Definition select_query (location : BigQueryLocation) (include_id : bool)
  : string :=
  "SELECT "
  ++ (if include_id then id_column location ++ ", " else EmptyString)
  ++ join ", " (columns location)
  ++ " FROM `" ++ table location ++ "`".

Definition rows : list Row :=
  [ [ ("training_run", VInt 0); ("iteration", VInt 0);
      ("loss", VFloat "0.62"); ("eval_loss", VFloat "0.65");
      ("learning_rate", VFloat "0.3"); ("duration_ms", VInt 4120) ];
    [ ("training_run", VInt 0); ("iteration", VInt 1);
      ("loss", VFloat "0.48"); ("eval_loss", VFloat "0.55");
      ("learning_rate", VFloat "0.3"); ("duration_ms", VInt 3980) ] ].

Definition anon_table : TableReference.t :=
  {| TableReference.project := "proj";
     TableReference.dataset_id := "_tmp";
     TableReference.table_id := "anon42" |}.

Definition finished : QueryJob :=
  {| result := rows; destination := anon_table |}.

(** Every job succeeds, with the two rows above and the same
    destination. *)
Definition warehouse (history : list Job) (job : Job) : exn + QueryJob :=
  inr finished.

(** Every job is refused. *)
Definition broken_warehouse (history : list Job) (job : Job)
  : exn + QueryJob :=
  inl (JobError "403 Access Denied").

Definition train_x : BigQueryLocation :=
  {| columns := ["a"; "b"]; id_column := "id"; table := "proj.ds.train";
     order := VStr "id"; limit := VInt 1000 |}.

Definition train_y : BigQueryLocation :=
  {| columns := ["y"]; id_column := "id"; table := "proj.ds.train";
     order := VStr "id"; limit := VInt 1000 |}.

Definition eval_x : BigQueryLocation :=
  {| columns := ["a"; "b"]; id_column := "id"; table := "proj.ds.eval";
     order := VNone; limit := VNone |}.

Definition eval_y : BigQueryLocation :=
  {| columns := ["y"]; id_column := "id"; table := "proj.ds.eval";
     order := VNone; limit := VNone |}.

(** Label descriptors with the same columns and everything else
    different. *)
Definition other_train_y : BigQueryLocation :=
  {| columns := ["y"]; id_column := "key"; table := "other.ds.labels";
     order := VStr "key"; limit := VInt 5 |}.

Definition other_eval_y : BigQueryLocation :=
  {| columns := ["y"]; id_column := "key"; table := "other.ds.labels2";
     order := VStr "y"; limit := VInt 7 |}.

Definition options : dict :=
  [ ("model_type", VStr "boosted_tree"); ("max_iterations", VInt 50);
    ("early_stop", VBool true) ].

Definition options_with_split : dict :=
  [ ("model_type", VStr "linear_reg"); ("DATA_SPLIT_METHOD", VStr "RANDOM") ].

(** A fresh adapter, nothing submitted. *)
Definition fresh : World := created (VStr "proj") (VStr "ds").

Definition instantiated : World :=
  snd (instantiate_model (VStr "churn") (VInt 3) options fresh).

Definition instantiated_kwargs : dict :=
  [ ("model_type", VStr "boosted_tree"); ("max_iterations", VInt 50);
    ("early_stop", VBool true); ("data_split_method", VStr "CUSTOM");
    ("data_split_col", VStr "is_eval") ].

Definition fitted : World :=
  snd (fit select_query warehouse train_x train_y eval_x eval_y instantiated).

Definition fitted_kwargs : dict :=
  [ ("model_type", VStr "boosted_tree"); ("max_iterations", VInt 50);
    ("early_stop", VBool true); ("data_split_method", VStr "CUSTOM");
    ("data_split_col", VStr "is_eval"); ("input_label_cols", VList ["y"]) ].

(** A label descriptor without columns. *)
Definition no_label : BigQueryLocation :=
  {| columns := []; id_column := "id"; table := "proj.ds.train";
     order := VNone; limit := VNone |}.

(** A row without [eval_loss] and without [learning_rate]. *)
Definition short_row : Row :=
  [ ("iteration", VInt 2); ("loss", VFloat "0.41");
    ("duration_ms", VInt 3900) ].

Definition ragged : QueryJob :=
  {| result := rows ++ [short_row]; destination := anon_table |}.

(** Every job succeeds, with the two rows and the short one. *)
Definition ragged_warehouse (history : list Job) (job : Job)
  : exn + QueryJob :=
  inr ragged.

End Sample.

(** ** Text and dictionary lemmas *)

Lemma append_assoc (a b c : string) : (a ++ b) ++ c = a ++ (b ++ c).
Proof.
  induction a as [|ch a IH]; simpl; [reflexivity | now rewrite IH].
Qed.

Lemma append_nil_r (a : string) : a ++ EmptyString = a.
Proof.
  induction a as [|ch a IH]; simpl; [reflexivity | now rewrite IH].
Qed.

Lemma lower_data_split_method :
  lower "data_split_method" = "data_split_method".
Proof. reflexivity. Qed.

Lemma str_in_true (x : string) (l : list string) :
  str_in x l = true <-> In x l.
Proof.
  unfold str_in. rewrite existsb_exists. split.
  - intros [y [Hy Heq]]. apply String.eqb_eq in Heq. now subst.
  - intros H. exists x. split; [assumption | apply String.eqb_refl].
Qed.

Lemma str_in_false (x : string) (l : list string) :
  str_in x l = false <-> ~ In x l.
Proof.
  rewrite <- str_in_true. destruct (str_in x l); split; intros H;
    try reflexivity; try discriminate; try (intros H'; discriminate).
  exfalso. now apply H.
Qed.

Lemma get_set_same (d : dict) (k : string) (v : value) :
  Py.get (Py.set d k v) k = Some v.
Proof.
  induction d as [|[k' v'] d IH]; simpl.
  - now rewrite String.eqb_refl.
  - destruct (String.eqb k k') eqn:E; simpl; rewrite E; [reflexivity | exact IH].
Qed.

Lemma get_set_other (d : dict) (k k' : string) (v : value) :
  k <> k' -> Py.get (Py.set d k v) k' = Py.get d k'.
Proof.
  intros Hne. induction d as [|[k0 v0] d IH]; simpl.
  - apply String.eqb_neq in Hne. rewrite String.eqb_sym in Hne. now rewrite Hne.
  - destruct (String.eqb k k0) eqn:E; simpl.
    + apply String.eqb_eq in E. subst k0.
      assert (Hk : String.eqb k' k = false)
        by (apply String.eqb_neq; congruence).
      now rewrite Hk.
    + now rewrite IH.
Qed.

(** The membership test of [instantiate_model] against its reading
    as a statement about the keys. *)
Lemma split_method_absent (options : dict) :
  (forall key, In key (keys options) -> lower key <> "data_split_method") ->
  str_in (lower "data_split_method") (map lower (keys options)) = false.
Proof.
  intros H. apply str_in_false. rewrite lower_data_split_method.
  intros Hin. apply in_map_iff in Hin. destruct Hin as [key [Hlow Hkey]].
  exact (H key Hkey Hlow).
Qed.

Lemma split_method_present (options : dict) :
  (exists key, In key (keys options) /\ lower key = "data_split_method") ->
  str_in (lower "data_split_method") (map lower (keys options)) = true.
Proof.
  intros [key [Hkey Hlow]]. apply str_in_true.
  rewrite lower_data_split_method, <- Hlow. now apply in_map.
Qed.

(** ** instantiate_model *)

(** What [instantiate_model] leaves behind, whatever the adapter was
    before: the identity attributes and the options, with the split
    defaults when no key spells [data_split_method]. *)
Lemma instantiate_model_run (w : World) (id version : value) (options : dict) :
  instantiate_model id version options w =
  (inr tt,
   {| self :=
        {| project := project (self w);
           dataset := dataset (self w);
           model_id := Some id;
           model_version := Some version;
           model_id_version := Some (str id ++ "_" ++ str version);
           sql_model_path :=
             Some (str (project (self w)) ++ "." ++ str (dataset (self w))
                   ++ "." ++ (str id ++ "_" ++ str version));
           kwargs :=
             Some (if str_in (lower "data_split_method")
                        (map lower (keys options))
                   then options
                   else Py.set (Py.set options "data_split_method"
                                  (VStr "CUSTOM"))
                          "data_split_col" (VStr "is_eval")) |};
      submitted := submitted w |}).
Proof.
  unfold instantiate_model.
  destruct (str_in (lower "data_split_method") (map lower (keys options)));
    reflexivity.
Qed.

(** C2. When no key of the options is [data_split_method] in any
    casing, [instantiate_model] returns normally and the stored
    configuration maps [data_split_method] to ['CUSTOM'] and
    [data_split_col] to ['is_eval']; every other key keeps the value
    the caller gave. *)
Theorem instantiate_model_injects_split_defaults :
  forall (w : World) (id version : value) (options : dict),
    (forall key, In key (keys options) -> lower key <> "data_split_method") ->
    exists kw,
      fst (instantiate_model id version options w) = inr tt /\
      kwargs (self (snd (instantiate_model id version options w))) = Some kw /\
      Py.get kw "data_split_method" = Some (VStr "CUSTOM") /\
      Py.get kw "data_split_col" = Some (VStr "is_eval") /\
      forall key, key <> "data_split_method" -> key <> "data_split_col" ->
                  Py.get kw key = Py.get options key.
Proof.
  intros w id version options Hno.
  rewrite instantiate_model_run, (split_method_absent options Hno). simpl.
  eexists. split; [reflexivity |]. split; [reflexivity |].
  split; [| split].
  - rewrite get_set_other by discriminate. apply get_set_same.
  - apply get_set_same.
  - intros key H1 H2. rewrite !get_set_other by congruence. reflexivity.
Qed.

Lemma instantiate_model_injects_split_defaults_witness :
  exists kw,
    fst (instantiate_model (VStr "churn") (VInt 3) Sample.options Sample.fresh)
    = inr tt /\
    kwargs (self (snd (instantiate_model (VStr "churn") (VInt 3)
                         Sample.options Sample.fresh))) = Some kw /\
    Py.get kw "data_split_method" = Some (VStr "CUSTOM") /\
    Py.get kw "data_split_col" = Some (VStr "is_eval") /\
    forall key, key <> "data_split_method" -> key <> "data_split_col" ->
                Py.get kw key = Py.get Sample.options key.
Proof.
  apply (instantiate_model_injects_split_defaults
           Sample.fresh (VStr "churn") (VInt 3) Sample.options).
  simpl. intros key [H | [H | [H | []]]]; subst key; vm_compute; discriminate.
Defined.

(** C3. When some key of the options is [data_split_method] in some
    casing, [instantiate_model] returns normally and the stored
    configuration is the caller's mapping itself: the same keys, in
    the same order, with the same values. *)
Theorem instantiate_model_keeps_explicit_split :
  forall (w : World) (id version : value) (options : dict),
    (exists key, In key (keys options) /\ lower key = "data_split_method") ->
    fst (instantiate_model id version options w) = inr tt /\
    kwargs (self (snd (instantiate_model id version options w)))
    = Some options.
Proof.
  intros w id version options Hsome.
  rewrite instantiate_model_run, (split_method_present options Hsome).
  split; reflexivity.
Qed.

Lemma instantiate_model_keeps_explicit_split_witness :
  fst (instantiate_model (VStr "churn") (VInt 3) Sample.options_with_split
         Sample.fresh) = inr tt /\
  kwargs (self (snd (instantiate_model (VStr "churn") (VInt 3)
                       Sample.options_with_split Sample.fresh)))
  = Some Sample.options_with_split.
Proof.
  apply (instantiate_model_keeps_explicit_split
           Sample.fresh (VStr "churn") (VInt 3) Sample.options_with_split).
  exists "DATA_SPLIT_METHOD". split; [simpl; tauto | reflexivity].
Defined.

(** ** fit *)

Section FitProperties.

Variable get_select_query : BigQueryLocation -> bool -> string.
Variable warehouse : list Job -> Job -> exn + QueryJob.

Lemma format_create_model_query (path options train_query eval_data : string) :
  format create_model_query
    [ ("train_query", VStr train_query); ("eval_data", VStr eval_data);
      ("sql_model_path", VStr path); ("options", VStr options) ]
  = inr (create_model_text path options train_query eval_data).
Proof. reflexivity. Qed.

(** [fit] on an instantiated adapter: the labels are stored, one job
    is submitted, and the outcome is the outcome of the job. *)
Lemma fit_run (w : World) (kw : dict) (path : string)
  (train_x train_y eval_x eval_y : BigQueryLocation) :
  kwargs (self w) = Some kw ->
  sql_model_path (self w) = Some path ->
  fit get_select_query warehouse train_x train_y eval_x eval_y w =
  (match warehouse (submitted w)
           (fit_job get_select_query kw path train_x train_y eval_x eval_y)
   with
   | inl e => inl e
   | inr _ => inr tt
   end,
   {| self :=
        with_kwargs (Py.set kw "input_label_cols" (VList (columns train_y)))
          (self w);
      submitted :=
        submitted w
        ++ [fit_job get_select_query kw path train_x train_y eval_x eval_y] |}).
Proof.
  intros Hkw Hpath.
  unfold fit, kwargs_setitem, bind, getattr, setattr.
  rewrite Hkw. cbn [self kwargs with_kwargs sql_model_path].
  rewrite Hpath, format_create_model_query.
  unfold lift, run_query_and_wait, ret. cbn [self submitted].
  fold (data_location train_x train_y). fold (data_location eval_x eval_y).
  unfold fit_job.
  destruct (warehouse _ _); reflexivity.
Qed.

(** Before [instantiate_model], [fit] stops at [self.kwargs]. *)
Lemma fit_without_kwargs (w : World)
  (train_x train_y eval_x eval_y : BigQueryLocation) :
  kwargs (self w) = None ->
  fit get_select_query warehouse train_x train_y eval_x eval_y w
  = (inl (AttributeError "kwargs"), w).
Proof.
  intros Hkw. unfold fit, kwargs_setitem, bind, getattr.
  rewrite Hkw. reflexivity.
Qed.

Lemma fit_without_path (w : World) (kw : dict)
  (train_x train_y eval_x eval_y : BigQueryLocation) :
  kwargs (self w) = Some kw ->
  sql_model_path (self w) = None ->
  submitted (snd (fit get_select_query warehouse
                    train_x train_y eval_x eval_y w)) = submitted w.
Proof.
  intros Hkw Hpath. unfold fit, kwargs_setitem, bind, getattr, setattr.
  rewrite Hkw. cbn [self kwargs with_kwargs sql_model_path].
  rewrite Hpath. reflexivity.
Qed.

Lemma option_entry_rendered (entry : string * value) :
  option_entry "'" entry = rendered_option entry.
Proof.
  destruct entry as [key v]. unfold option_entry, rendered_option.
  destruct v; cbn [is_str fst snd]; cbn [append];
    rewrite ?append_nil_r; reflexivity.
Qed.

(** C1. On an instantiated adapter, for any four location
    descriptors, [fit] leaves the configuration with
    [input_label_cols] bound to the columns of [train_y], and submits
    one statement that ends with the two sub-queries and their union:
    [train_query] is the [SELECT] of the columns of [train_x] followed
    by those of [train_y], [eval_data] the [SELECT] of the columns of
    [eval_x] followed by those of [eval_y], the rows of the first are
    taken with [false as is_eval], those of the second with
    [true as is_eval], and the two are joined by [UNION ALL]. *)
Theorem fit_stores_labels_and_unions_splits :
  forall (w : World) (kw : dict) (path : string)
         (train_x train_y eval_x eval_y : BigQueryLocation),
    kwargs (self w) = Some kw ->
    sql_model_path (self w) = Some path ->
    let w' := snd (fit get_select_query warehouse
                     train_x train_y eval_x eval_y w) in
    (exists kw',
        kwargs (self w') = Some kw' /\
        Py.get kw' "input_label_cols" = Some (VList (columns train_y))) /\
    exists job head,
      submitted w' = (submitted w ++ [job])%list /\
      sql job =
        head ++ "AS (" ++ nl
        ++ "    WITH train_query AS ("
        ++ get_select_query
             {| columns := columns train_x ++ columns train_y;
                id_column := id_column train_x; table := table train_x;
                order := order train_x; limit := limit train_x |} false
        ++ ")," ++ nl
        ++ "         eval_data AS ("
        ++ get_select_query
             {| columns := columns eval_x ++ columns eval_y;
                id_column := id_column eval_x; table := table eval_x;
                order := order eval_x; limit := limit eval_x |} false
        ++ ")" ++ nl
        ++ "    SELECT *, false as is_eval FROM train_query UNION ALL " ++ nl
        ++ "    SELECT *, true as is_eval FROM eval_data" ++ nl
        ++ ")" ++ nl.
Proof.
  intros w kw path train_x train_y eval_x eval_y Hkw Hpath w'.
  subst w'. rewrite (fit_run _ _ _ _ _ Hkw Hpath). cbn [snd self submitted].
  split.
  - eexists. split; [reflexivity | apply get_set_same].
  - eexists. exists (nl ++ "CREATE OR REPLACE MODEL `" ++ path ++ "`" ++ nl
       ++ "OPTIONS (" ++ nl
       ++ join ("," ++ nl)
            (map (option_entry "'")
               (Py.set kw "input_label_cols" (VList (columns train_y))))
       ++ ")" ++ nl).
    split; [reflexivity |].
    cbn [sql fit_job]. unfold create_model_text, data_location.
    repeat rewrite append_assoc. reflexivity.
Qed.

(** C4. The options clause of the statement [fit] submits, between
    [OPTIONS (] and [)], is the entries of the configuration (the
    label columns included) in their order, joined by a comma and a
    line feed; an entry with a text value reads [key='value'], any
    other entry reads [key=value] with the value as it prints. *)
Theorem fit_renders_options_clause :
  forall (w : World) (kw : dict) (path : string)
         (train_x train_y eval_x eval_y : BigQueryLocation),
    kwargs (self w) = Some kw ->
    sql_model_path (self w) = Some path ->
    exists job head tail,
      submitted (snd (fit get_select_query warehouse
                        train_x train_y eval_x eval_y w))
      = (submitted w ++ [job])%list /\
      sql job =
        head ++ "OPTIONS (" ++ nl
        ++ join ("," ++ nl)
             (map rendered_option
                (Py.set kw "input_label_cols" (VList (columns train_y))))
        ++ ")" ++ nl ++ "AS (" ++ tail.
Proof.
  intros w kw path train_x train_y eval_x eval_y Hkw Hpath.
  rewrite (fit_run _ _ _ _ _ Hkw Hpath). cbn [snd submitted].
  eexists. exists (nl ++ "CREATE OR REPLACE MODEL `" ++ path ++ "`" ++ nl).
  eexists. split; [reflexivity |].
  cbn [sql fit_job]. unfold create_model_text.
  rewrite (map_ext _ _ option_entry_rendered).
  repeat rewrite append_assoc. reflexivity.
Qed.

(** C10. [fit] reads nothing of [train_y] and [eval_y] but their
    columns: with label descriptors that have the same columns and any
    other identifier column, table, order and limit, it does the same
    and returns the same.  On an instantiated adapter the statement it
    submits has, as sub-queries, the [SELECT] of descriptors whose
    identifier column, table, order and limit are those of [train_x]
    and of [eval_x]. *)
Theorem fit_ignores_label_locations :
  forall (w : World) (train_x train_y train_y' eval_x eval_y eval_y'
            : BigQueryLocation),
    columns train_y' = columns train_y ->
    columns eval_y' = columns eval_y ->
    fit get_select_query warehouse train_x train_y' eval_x eval_y' w
    = fit get_select_query warehouse train_x train_y eval_x eval_y w /\
    forall kw path,
      kwargs (self w) = Some kw ->
      sql_model_path (self w) = Some path ->
      exists job options,
        submitted (snd (fit get_select_query warehouse
                          train_x train_y' eval_x eval_y' w))
        = (submitted w ++ [job])%list /\
        sql job =
          create_model_text path options
            (get_select_query
               {| columns := columns train_x ++ columns train_y;
                  id_column := id_column train_x; table := table train_x;
                  order := order train_x; limit := limit train_x |} false)
            (get_select_query
               {| columns := columns eval_x ++ columns eval_y;
                  id_column := id_column eval_x; table := table eval_x;
                  order := order eval_x; limit := limit eval_x |} false).
Proof.
  intros w train_x train_y train_y' eval_x eval_y eval_y' Htrain Heval.
  assert (Hsame :
    fit get_select_query warehouse train_x train_y' eval_x eval_y' w
    = fit get_select_query warehouse train_x train_y eval_x eval_y w).
  { unfold fit. rewrite Htrain, Heval. reflexivity. }
  split; [exact Hsame |].
  intros kw path Hkw Hpath. rewrite Hsame.
  rewrite (fit_run _ _ _ _ _ Hkw Hpath). cbn [snd submitted].
  eexists. eexists. split; reflexivity.
Qed.

End FitProperties.

Lemma fit_stores_labels_and_unions_splits_witness :
  let w' := snd (fit Sample.select_query Sample.warehouse
                   Sample.train_x Sample.train_y Sample.eval_x Sample.eval_y
                   Sample.instantiated) in
  (exists kw',
      kwargs (self w') = Some kw' /\
      Py.get kw' "input_label_cols" = Some (VList ["y"])) /\
  exists job head,
    submitted w' = [job] /\
    sql job =
      head ++ "AS (" ++ nl
      ++ "    WITH train_query AS (SELECT a, b, y FROM `proj.ds.train`)," ++ nl
      ++ "         eval_data AS (SELECT a, b, y FROM `proj.ds.eval`)" ++ nl
      ++ "    SELECT *, false as is_eval FROM train_query UNION ALL " ++ nl
      ++ "    SELECT *, true as is_eval FROM eval_data" ++ nl
      ++ ")" ++ nl.
Proof.
  exact (@fit_stores_labels_and_unions_splits
           Sample.select_query Sample.warehouse Sample.instantiated
           Sample.instantiated_kwargs "proj.ds.churn_3"
           Sample.train_x Sample.train_y Sample.eval_x Sample.eval_y
           eq_refl eq_refl).
Defined.

Lemma fit_renders_options_clause_witness :
  exists job head tail,
    submitted (snd (fit Sample.select_query Sample.warehouse
                      Sample.train_x Sample.train_y
                      Sample.eval_x Sample.eval_y Sample.instantiated))
    = [job] /\
    sql job =
      head ++ "OPTIONS (" ++ nl
      ++ "model_type='boosted_tree'," ++ nl
      ++ "max_iterations=50," ++ nl
      ++ "early_stop=True," ++ nl
      ++ "data_split_method='CUSTOM'," ++ nl
      ++ "data_split_col='is_eval'," ++ nl
      ++ "input_label_cols=['y'])" ++ nl ++ "AS (" ++ tail.
Proof.
  exact (@fit_renders_options_clause
           Sample.select_query Sample.warehouse Sample.instantiated
           Sample.instantiated_kwargs "proj.ds.churn_3"
           Sample.train_x Sample.train_y Sample.eval_x Sample.eval_y
           eq_refl eq_refl).
Defined.

Lemma fit_ignores_label_locations_witness :
  fit Sample.select_query Sample.warehouse
    Sample.train_x Sample.other_train_y Sample.eval_x Sample.other_eval_y
    Sample.instantiated
  = fit Sample.select_query Sample.warehouse
      Sample.train_x Sample.train_y Sample.eval_x Sample.eval_y
      Sample.instantiated /\
  exists job options,
    submitted (snd (fit Sample.select_query Sample.warehouse
                      Sample.train_x Sample.other_train_y
                      Sample.eval_x Sample.other_eval_y Sample.instantiated))
    = [job] /\
    sql job =
      create_model_text "proj.ds.churn_3" options
        "SELECT a, b, y FROM `proj.ds.train`"
        "SELECT a, b, y FROM `proj.ds.eval`".
Proof.
  pose proof (@fit_ignores_label_locations
                Sample.select_query Sample.warehouse Sample.instantiated
                Sample.train_x Sample.train_y Sample.other_train_y
                Sample.eval_x Sample.eval_y Sample.other_eval_y
                eq_refl eq_refl) as H.
  exact (conj (proj1 H)
           (proj2 H Sample.instantiated_kwargs "proj.ds.churn_3"
              eq_refl eq_refl)).
Defined.

(** ** predict *)

Section PredictProperties.

Variable get_select_query : BigQueryLocation -> bool -> string.
Variable default_limit : value.
Variable warehouse : list Job -> Job -> exn + QueryJob.

Lemma format_predict_query (id path select : string) (target : value) :
  format predict_query
    [ ("id_column", VStr id); ("target_column", target);
      ("sql_model_path", VStr path); ("predict_query", VStr select) ]
  = inr (predict_text id (str target) path select).
Proof. reflexivity. Qed.

(** [predict] once the target column is found: one job is submitted,
    the adapter is left as it was, and the descriptor is built from
    the destination of the job. *)
Lemma predict_run (w : World) (kw : dict) (path : string)
  (label_cols target_column : value) (data : BigQueryLocation) :
  kwargs (self w) = Some kw ->
  Py.get kw "input_label_cols" = Some label_cols ->
  subscript0 label_cols = inr target_column ->
  sql_model_path (self w) = Some path ->
  predict get_select_query default_limit warehouse data w =
  (match warehouse (submitted w)
           (predict_job get_select_query path data target_column) with
   | inl e => inl e
   | inr query_job =>
       inr {| columns := ["predicted_" ++ str target_column];
              id_column := id_column data;
              table :=
                TableReference.project (destination query_job) ++ "."
                ++ TableReference.dataset_id (destination query_job) ++ "."
                ++ TableReference.table_id (destination query_job);
              order := order data;
              limit := default_limit |}
   end,
   {| self := self w;
      submitted :=
        submitted w
        ++ [predict_job get_select_query path data target_column] |}).
Proof.
  intros Hkw Hget Hsub Hpath.
  unfold predict, kwargs_getitem, bind, getattr.
  rewrite Hkw, Hget. unfold ret, lift. rewrite Hsub, Hpath.
  rewrite format_predict_query. unfold run_query_and_wait.
  fold (predict_job get_select_query path data target_column).
  destruct (warehouse _ _); reflexivity.
Qed.

(** Everything [predict] can do: nothing is submitted, or one job
    with the fixed prefix is. *)
Lemma predict_submits (w : World) (data : BigQueryLocation) :
  exists jobs,
    submitted (snd (predict get_select_query default_limit warehouse data w))
    = (submitted w ++ jobs)%list /\ all_prefixed jobs.
Proof.
  destruct (kwargs (self w)) as [kw|] eqn:Hkw.
  - destruct (Py.get kw "input_label_cols") as [label_cols|] eqn:Hget.
    + destruct (subscript0 label_cols) as [e|target] eqn:Hsub.
      * exists []. split; [| constructor].
        unfold predict, kwargs_getitem, bind, getattr.
        rewrite Hkw, Hget. unfold ret, lift. rewrite Hsub.
        now rewrite app_nil_r.
      * destruct (sql_model_path (self w)) as [path|] eqn:Hpath.
        -- rewrite (predict_run w data Hkw Hget Hsub Hpath).
           eexists. split; [reflexivity |]. repeat constructor.
        -- exists []. split; [| constructor].
           unfold predict, kwargs_getitem, bind, getattr.
           rewrite Hkw, Hget. unfold ret, lift. rewrite Hsub, Hpath.
           now rewrite app_nil_r.
    + exists []. split; [| constructor].
      unfold predict, kwargs_getitem, bind, getattr.
      rewrite Hkw, Hget. cbn. now rewrite app_nil_r.
  - exists []. split; [| constructor].
    unfold predict, kwargs_getitem, bind, getattr.
    rewrite Hkw. cbn. now rewrite app_nil_r.
Qed.

(** C5. On an adapter whose configuration has no [input_label_cols]
    key, which is how [instantiate_model] leaves it until [fit] runs,
    [predict] raises [KeyError] for that key and leaves the adapter
    and the list of submitted jobs as they were: the failure is
    local, no job reaches the warehouse. *)
Theorem predict_before_fit_raises_key_error :
  forall (w : World) (kw : dict) (data : BigQueryLocation),
    kwargs (self w) = Some kw ->
    Py.get kw "input_label_cols" = None ->
    predict get_select_query default_limit warehouse data w
    = (inl (KeyError "input_label_cols"), w).
Proof.
  intros w kw data Hkw Hget.
  unfold predict, kwargs_getitem, bind, getattr.
  rewrite Hkw, Hget. reflexivity.
Qed.

(** C6. On an adapter whose stored [input_label_cols] has a first
    entry, as [fit] leaves it, when the prediction job finishes
    [predict] returns a descriptor with the one column
    [predicted_<target>] for that first entry, the identifier column
    and the order of [data], and as table the destination of the job
    written [project.dataset_id.table_id]; the limit is the one of a
    descriptor built without limit. *)
Theorem predict_returns_destination_location :
  forall (w : World) (kw : dict) (path target : string) (others : list string)
         (data : BigQueryLocation) (query_job : QueryJob),
    kwargs (self w) = Some kw ->
    Py.get kw "input_label_cols" = Some (VList (target :: others)) ->
    sql_model_path (self w) = Some path ->
    warehouse (submitted w)
      (predict_job get_select_query path data (VStr target))
    = inr query_job ->
    exists location,
      fst (predict get_select_query default_limit warehouse data w)
      = inr location /\
      columns location = ["predicted_" ++ target] /\
      id_column location = id_column data /\
      table location =
        TableReference.project (destination query_job) ++ "."
        ++ TableReference.dataset_id (destination query_job) ++ "."
        ++ TableReference.table_id (destination query_job) /\
      order location = order data /\
      limit location = default_limit.
Proof.
  intros w kw path target others data query_job Hkw Hget Hpath Hjob.
  assert (Hsub : subscript0 (VList (target :: others)) = inr (VStr target))
    by reflexivity.
  rewrite (predict_run w data Hkw Hget Hsub Hpath).
  rewrite Hjob. cbn [fst]. eexists. split; [reflexivity |].
  cbn [columns id_column table order limit str]. repeat split.
Qed.

End PredictProperties.

Lemma predict_before_fit_raises_key_error_witness :
  predict Sample.select_query VNone Sample.warehouse Sample.train_x
    Sample.instantiated
  = (inl (KeyError "input_label_cols"), Sample.instantiated).
Proof.
  exact (@predict_before_fit_raises_key_error
           Sample.select_query VNone Sample.warehouse Sample.instantiated
           Sample.instantiated_kwargs Sample.train_x eq_refl eq_refl).
Defined.

Lemma predict_returns_destination_location_witness :
  exists location,
    fst (predict Sample.select_query VNone Sample.warehouse Sample.train_x
           Sample.fitted) = inr location /\
    columns location = ["predicted_y"] /\
    id_column location = "id" /\
    table location = "proj._tmp.anon42" /\
    order location = VStr "id" /\
    limit location = VNone.
Proof.
  exact (@predict_returns_destination_location
           Sample.select_query VNone Sample.warehouse Sample.fitted
           Sample.fitted_kwargs "proj.ds.churn_3" "y" []
           Sample.train_x Sample.finished eq_refl eq_refl eq_refl eq_refl).
Defined.

(** ** get_train_metrics *)

Section MetricsProperties.

Variable warehouse : list Job -> Job -> exn + QueryJob.

Lemma metrics_struct_of_iteration_row (row : Row) :
  iteration_row row = true ->
  exists m, metrics_struct row = inr m /\ metric_of_row row m.
Proof.
  unfold iteration_row, training_fields, has_field. cbn [forallb].
  unfold metrics_struct, row_attr.
  destruct (Py.get row "loss") as [loss|] eqn:Hloss; [| discriminate].
  destruct (Py.get row "eval_loss") as [eval_loss|] eqn:Heval;
    [| discriminate].
  destruct (Py.get row "duration_ms") as [duration|] eqn:Hdur;
    [| discriminate].
  destruct (Py.get row "learning_rate") as [rate|] eqn:Hrate;
    [| discriminate].
  destruct (Py.get row "iteration") as [iteration|] eqn:Hiter;
    [| discriminate].
  intros _. eexists. split; [reflexivity |].
  unfold metric_of_row. cbn [metrics step]. split; [exact Hiter |].
  split; [reflexivity |].
  intros name Hin. cbn in Hin.
  destruct Hin as [H | [H | [H | [H | []]]]]; subst name; cbn; congruence.
Qed.

Lemma collect_metrics_of_iteration_rows (rows : list Row) :
  forallb iteration_row rows = true ->
  forall acc, exists ms,
    collect_metrics rows acc = inr (acc ++ ms)%list /\
    Forall2 metric_of_row rows ms.
Proof.
  induction rows as [|row rows IH]; intros Hrows acc.
  - exists []. split; [now rewrite app_nil_r | constructor].
  - cbn [forallb] in Hrows. apply andb_true_iff in Hrows.
    destruct Hrows as [Hrow Hrest].
    destruct (metrics_struct_of_iteration_row row Hrow) as [m [Hm Hrel]].
    destruct (IH Hrest (acc ++ [m])%list) as [ms [Hms Hall]].
    exists (m :: ms). split.
    + cbn [collect_metrics]. rewrite Hm, Hms. now rewrite <- app_assoc.
    + now constructor.
Qed.

Lemma get_train_metrics_run (w : World) (path : string) :
  sql_model_path (self w) = Some path ->
  get_train_metrics warehouse w =
  (match warehouse (submitted w) (train_metric_job path) with
   | inl e => inl e
   | inr query_job => collect_metrics (result query_job) []
   end,
   {| self := self w;
      submitted := submitted w ++ [train_metric_job path] |}).
Proof.
  intros Hpath. unfold get_train_metrics, bind, getattr. rewrite Hpath.
  unfold lift. cbn [format train_metric_query Py.get String.eqb Ascii.eqb Bool.eqb].
  unfold run_query_and_wait. fold (train_metric_job path).
  destruct (warehouse _ _); reflexivity.
Qed.

(** C7. When the diagnostics job finishes with n rows that have the
    fields of a training iteration, [get_train_metrics] returns n
    records, the k-th made of the k-th row: its step is the
    [iteration] of the row, and its metrics have exactly the keys
    [loss], [eval_loss], [duration_ms] and [learning_rate], each with
    the value of the field of that name in the row.  The statement of
    the job asks for the rows in the order of [iteration]. *)
Theorem get_train_metrics_maps_rows_in_order :
  forall (w : World) (path : string) (query_job : QueryJob),
    sql_model_path (self w) = Some path ->
    warehouse (submitted w) (train_metric_job path) = inr query_job ->
    forallb iteration_row (result query_job) = true ->
    exists ms,
      fst (get_train_metrics warehouse w) = inr ms /\
      List.length ms = List.length (result query_job) /\
      Forall2 metric_of_row (result query_job) ms /\
      submitted (snd (get_train_metrics warehouse w))
      = (submitted w
         ++ [ {| sql := nl ++ "SELECT * FROM ML.TRAINING_INFO(MODEL `"
                        ++ path ++ "`) ORDER BY iteration" ++ nl ++ "    ";
                 prefix := "mlflow_model_" |} ])%list.
Proof.
  intros w path query_job Hpath Hjob Hrows.
  rewrite (get_train_metrics_run w Hpath), Hjob. cbn [fst snd submitted].
  destruct (collect_metrics_of_iteration_rows _ Hrows []) as [ms [Hms Hall]].
  exists ms. split; [exact Hms |]. split; [| split; [exact Hall | reflexivity]].
  symmetry. exact (Forall2_length Hall).
Qed.

End MetricsProperties.

Lemma get_train_metrics_maps_rows_in_order_witness :
  exists ms,
    fst (get_train_metrics Sample.warehouse Sample.fitted) = inr ms /\
    List.length ms = 2%nat /\
    Forall2 metric_of_row Sample.rows ms /\
    submitted (snd (get_train_metrics Sample.warehouse Sample.fitted))
    = (submitted Sample.fitted
       ++ [ {| sql := nl ++ "SELECT * FROM ML.TRAINING_INFO(MODEL `"
                      ++ "proj.ds.churn_3" ++ "`) ORDER BY iteration"
                      ++ nl ++ "    ";
               prefix := "mlflow_model_" |} ])%list.
Proof.
  exact (@get_train_metrics_maps_rows_in_order
           Sample.warehouse Sample.fitted "proj.ds.churn_3" Sample.finished
           eq_refl eq_refl eq_refl).
Defined.

(** The records of the two sample rows, spelled out. *)
Example get_train_metrics_sample :
  fst (get_train_metrics Sample.warehouse Sample.fitted)
  = inr [ {| metrics := [ ("loss", VFloat "0.62"); ("eval_loss", VFloat "0.65");
                          ("duration_ms", VInt 4120);
                          ("learning_rate", VFloat "0.3") ];
             step := VInt 0 |};
          {| metrics := [ ("loss", VFloat "0.48"); ("eval_loss", VFloat "0.55");
                          ("duration_ms", VInt 3980);
                          ("learning_rate", VFloat "0.3") ];
             step := VInt 1 |} ].
Proof. reflexivity. Qed.

(** ** save and load *)

(** C8. [save] and [load] return normally for every adapter and every
    path, and leave the adapter as it was, attribute for attribute,
    and the list of submitted jobs too. *)
Theorem save_and_load_are_noops :
  forall (w : World) (folder_path : value),
    save folder_path w = (inr tt, w) /\ load folder_path w = (inr tt, w).
Proof. intros w folder_path. split; reflexivity. Qed.

(** ** The job prefix *)

Section PrefixProperties.

Variable get_select_query : BigQueryLocation -> bool -> string.
Variable default_limit : value.
Variable warehouse : list Job -> Job -> exn + QueryJob.

Lemma fit_submits (w : World)
  (train_x train_y eval_x eval_y : BigQueryLocation) :
  exists jobs,
    submitted (snd (fit get_select_query warehouse
                      train_x train_y eval_x eval_y w))
    = (submitted w ++ jobs)%list /\ all_prefixed jobs.
Proof.
  destruct (kwargs (self w)) as [kw|] eqn:Hkw.
  - destruct (sql_model_path (self w)) as [path|] eqn:Hpath.
    + rewrite (fit_run _ _ _ _ _ _ _ Hkw Hpath).
      eexists. split; [reflexivity |]. repeat constructor.
    + exists []. split; [| constructor].
      rewrite (fit_without_path _ _ _ _ _ _ _ Hkw Hpath).
      now rewrite app_nil_r.
  - exists []. split; [| constructor].
    rewrite (fit_without_kwargs _ _ _ _ _ _ _ Hkw). now rewrite app_nil_r.
Qed.

Lemma get_train_metrics_submits (w : World) :
  exists jobs,
    submitted (snd (get_train_metrics warehouse w))
    = (submitted w ++ jobs)%list /\ all_prefixed jobs.
Proof.
  destruct (sql_model_path (self w)) as [path|] eqn:Hpath.
  - rewrite (get_train_metrics_run warehouse w Hpath).
    eexists. split; [reflexivity |]. repeat constructor.
  - exists []. split; [| constructor].
    unfold get_train_metrics, bind, getattr. rewrite Hpath.
    cbn. now rewrite app_nil_r.
Qed.

(** One call adds at most jobs that carry the prefix. *)
Lemma run_call_submits (c : call) (w : World) :
  exists jobs,
    submitted (run_call get_select_query default_limit warehouse c w)
    = (submitted w ++ jobs)%list /\ all_prefixed jobs.
Proof.
  destruct c as [id version options | tx ty ex ey | data | path | path |];
    cbn [run_call].
  - exists []. split; [| constructor].
    rewrite instantiate_model_run. cbn. now rewrite app_nil_r.
  - apply fit_submits.
  - apply predict_submits.
  - exists []. split; [| constructor]. cbn. now rewrite app_nil_r.
  - exists []. split; [| constructor]. cbn. now rewrite app_nil_r.
  - apply get_train_metrics_submits.
Qed.

Lemma run_calls_keep_prefix (calls : list call) :
  forall w, all_prefixed (submitted w) ->
            all_prefixed
              (submitted (run_calls get_select_query default_limit warehouse
                            calls w)).
Proof.
  induction calls as [|c calls IH]; intros w Hw; [exact Hw |].
  cbn [run_calls fold_left]. apply IH.
  destruct (run_call_submits c w) as [jobs [Hjobs Hall]].
  rewrite Hjobs. apply Forall_app. split; assumption.
Qed.

(** C9. Whatever a client calls on an adapter, in whatever order and
    with whatever outcome, every job the adapter has submitted, from
    [fit], [predict] and [get_train_metrics] alike, carries the
    prefix [mlflow_model_]. *)
Theorem every_job_carries_the_prefix :
  forall (project dataset : value) (calls : list call),
    Forall (fun job => prefix job = "mlflow_model_")
      (submitted (run_calls get_select_query default_limit warehouse calls
                    (created project dataset))).
Proof.
  intros project dataset calls.
  apply run_calls_keep_prefix. constructor.
Qed.

End PrefixProperties.

(** A client that instantiates, fits, predicts and reads the metrics
    has submitted three jobs, each with the prefix. *)
Example sample_session_jobs :
  map prefix
    (submitted
       (run_calls Sample.select_query VNone Sample.warehouse
          [ CallInstantiateModel (VStr "churn") (VInt 3) Sample.options;
            CallFit Sample.train_x Sample.train_y Sample.eval_x Sample.eval_y;
            CallSave (VStr "/tmp/model");
            CallPredict Sample.eval_x;
            CallGetTrainMetrics ]
          Sample.fresh))
  = ["mlflow_model_"; "mlflow_model_"; "mlflow_model_"].
Proof. reflexivity. Qed.

(** ** The operations on the sample, and where they stop *)

Example option_entry_text :
  option_entry "'" ("model_type", VStr "boosted_tree")
  = "model_type='boosted_tree'".
Proof. reflexivity. Qed.

Example option_entry_number :
  option_entry "'" ("max_iterations", VInt 50) = "max_iterations=50".
Proof. reflexivity. Qed.

Example option_entry_boolean :
  option_entry "'" ("early_stop", VBool true) = "early_stop=True".
Proof. reflexivity. Qed.

Example option_entry_labels :
  option_entry "'" ("input_label_cols", VList ["y"])
  = "input_label_cols=['y']".
Proof. reflexivity. Qed.

Example fit_before_instantiate_model :
  fit Sample.select_query Sample.warehouse
    Sample.train_x Sample.train_y Sample.eval_x Sample.eval_y Sample.fresh
  = (inl (AttributeError "kwargs"), Sample.fresh).
Proof. reflexivity. Qed.

Example predict_before_instantiate_model :
  predict Sample.select_query VNone Sample.warehouse Sample.train_x
    Sample.fresh
  = (inl (AttributeError "kwargs"), Sample.fresh).
Proof. reflexivity. Qed.

(** A refused job leaves [fit] with the exception of the client; the
    labels are stored all the same. *)
Example fit_refused :
  let r := fit Sample.select_query Sample.broken_warehouse
             Sample.train_x Sample.train_y Sample.eval_x Sample.eval_y
             Sample.instantiated in
  fst r = inl (JobError "403 Access Denied") /\
  kwargs (self (snd r)) = Some Sample.fitted_kwargs /\
  List.length (submitted (snd r)) = 1%nat.
Proof. repeat split. Qed.

(** With no label column at all there is no first entry to predict. *)
Example predict_without_label_column :
  let no_label :=
    {| columns := []; id_column := "id"; table := "proj.ds.train";
       order := VNone; limit := VNone |} in
  let w := snd (fit Sample.select_query Sample.warehouse
                  Sample.train_x no_label Sample.eval_x no_label
                  Sample.instantiated) in
  fst (predict Sample.select_query VNone Sample.warehouse Sample.train_x w)
  = inl IndexError /\
  submitted (snd (predict Sample.select_query VNone Sample.warehouse
                    Sample.train_x w)) = submitted w.
Proof. split; reflexivity. Qed.

Example predict_statement :
  map sql
    (submitted (snd (predict Sample.select_query VNone Sample.warehouse
                       Sample.train_x Sample.fitted)))
  = [ sql (fit_job Sample.select_query Sample.instantiated_kwargs
             "proj.ds.churn_3"
             Sample.train_x Sample.train_y Sample.eval_x Sample.eval_y);
      nl ++ "SELECT id, predicted_y FROM ML.PREDICT(MODEL `proj.ds.churn_3`, "
         ++ "(SELECT id, a, b FROM `proj.ds.train`))" ++ nl ].
Proof. reflexivity. Qed.

(** ** More on dictionaries *)

Lemma get_none_not_in (d : dict) (k : string) :
  Py.get d k = None <-> ~ In k (keys d).
Proof.
  induction d as [|[k0 v0] d IH]; simpl.
  - tauto.
  - destruct (String.eqb k k0) eqn:E.
    + apply String.eqb_eq in E. subst k0. split; [discriminate | tauto].
    + apply String.eqb_neq in E. rewrite IH. split.
      * intros H [H' | H']; [congruence | tauto].
      * tauto.
Qed.

(** A new key goes last. *)
Lemma set_absent (d : dict) (k : string) (v : value) :
  Py.get d k = None -> Py.set d k v = (d ++ [(k, v)])%list.
Proof.
  induction d as [|[k0 v0] d IH]; simpl; [reflexivity |].
  destruct (String.eqb k k0); [discriminate |].
  intros H. now rewrite IH.
Qed.

(** The second assignment to a key is the one that stays. *)
Lemma set_set (d : dict) (k : string) (v v' : value) :
  Py.set (Py.set d k v) k v' = Py.set d k v'.
Proof.
  induction d as [|[k0 v0] d IH]; simpl.
  - now rewrite String.eqb_refl.
  - destruct (String.eqb k k0) eqn:E; simpl; rewrite E;
      [reflexivity | now rewrite IH].
Qed.

Lemma get_app_absent (d d' : dict) (k : string) :
  Py.get d k = None -> Py.get (d ++ d')%list k = Py.get d' k.
Proof.
  induction d as [|[k0 v0] d IH]; simpl; [reflexivity |].
  destruct (String.eqb k k0); [discriminate | exact IH].
Qed.

(** ** instantiate_model, again *)

(** X1. [instantiate_model] always returns normally and submits
    nothing, and the adapter it leaves depends on the project, the
    dataset and the arguments only: whatever identity, model path and
    configuration the adapter had, the label columns of an earlier
    [fit] included, is gone. *)
Theorem instantiate_model_forgets_previous_state :
  forall (w w' : World) (id version : value) (options : dict),
    project (self w) = project (self w') ->
    dataset (self w) = dataset (self w') ->
    self (snd (instantiate_model id version options w))
    = self (snd (instantiate_model id version options w')) /\
    fst (instantiate_model id version options w) = inr tt /\
    submitted (snd (instantiate_model id version options w)) = submitted w.
Proof.
  intros w w' id version options Hproject Hdataset.
  rewrite !instantiate_model_run. cbn [fst snd self submitted].
  rewrite Hproject, Hdataset. repeat split.
Qed.

Lemma instantiate_model_forgets_previous_state_witness :
  self (snd (instantiate_model (VStr "churn") (VInt 4)
               Sample.options_with_split Sample.fitted))
  = self (snd (instantiate_model (VStr "churn") (VInt 4)
                 Sample.options_with_split Sample.fresh)) /\
  fst (instantiate_model (VStr "churn") (VInt 4)
         Sample.options_with_split Sample.fitted) = inr tt /\
  submitted (snd (instantiate_model (VStr "churn") (VInt 4)
                    Sample.options_with_split Sample.fitted))
  = submitted Sample.fitted.
Proof.
  exact (@instantiate_model_forgets_previous_state
           Sample.fitted Sample.fresh (VStr "churn") (VInt 4)
           Sample.options_with_split eq_refl eq_refl).
Defined.

(** The configuration [instantiate_model] stores has the label
    columns only if the caller gave them. *)
Lemma instantiate_model_labels (w : World) (id version : value)
  (options : dict) :
  exists kw,
    kwargs (self (snd (instantiate_model id version options w))) = Some kw /\
    Py.get kw "input_label_cols" = Py.get options "input_label_cols".
Proof.
  rewrite instantiate_model_run. cbn [snd self kwargs].
  eexists. split; [reflexivity |].
  destruct (str_in _ _); [reflexivity |].
  rewrite !get_set_other by discriminate. reflexivity.
Qed.

Section AfterInstantiate.

Variable get_select_query : BigQueryLocation -> bool -> string.
Variable default_limit : value.
Variable warehouse : list Job -> Job -> exn + QueryJob.

(** X2. Right after [instantiate_model] with options that do not
    name [input_label_cols], [predict] raises [KeyError] for that key
    and submits nothing, whatever the adapter was before: a [fit]
    that ran before the adapter was instantiated again does not
    count. *)
Theorem predict_after_instantiate_model_raises_key_error :
  forall (w : World) (id version : value) (options : dict)
         (data : BigQueryLocation),
    Py.get options "input_label_cols" = None ->
    predict get_select_query default_limit warehouse data
      (snd (instantiate_model id version options w))
    = (inl (KeyError "input_label_cols"),
       snd (instantiate_model id version options w)).
Proof.
  intros w id version options data Hnone.
  destruct (instantiate_model_labels w id version options) as [kw [Hkw Hget]].
  rewrite Hnone in Hget.
  unfold predict, kwargs_getitem, bind, getattr.
  rewrite Hkw, Hget. reflexivity.
Qed.

(** X3. When the caller's options name neither a split method (in
    any casing), nor [data_split_col], nor [input_label_cols], the
    configuration after [instantiate_model] and [fit] is the caller's
    entries in their order, then the two split defaults, then the
    label columns, and the options clause of the statement lists them
    in that order. *)
Theorem instantiate_then_fit_orders_options :
  forall (w : World) (id version : value) (options : dict)
         (train_x train_y eval_x eval_y : BigQueryLocation),
    (forall key, In key (keys options) -> lower key <> "data_split_method") ->
    Py.get options "data_split_col" = None ->
    Py.get options "input_label_cols" = None ->
    let w' := snd (fit get_select_query warehouse
                     train_x train_y eval_x eval_y
                     (snd (instantiate_model id version options w))) in
    kwargs (self w')
    = Some (options
            ++ [ ("data_split_method", VStr "CUSTOM");
                 ("data_split_col", VStr "is_eval");
                 ("input_label_cols", VList (columns train_y)) ])%list /\
    exists job head tail,
      submitted w' = (submitted w ++ [job])%list /\
      sql job =
        head ++ "OPTIONS (" ++ nl
        ++ join ("," ++ nl)
             (map rendered_option options
              ++ [ "data_split_method='CUSTOM'"; "data_split_col='is_eval'";
                   "input_label_cols=" ++ str (VList (columns train_y)) ])
        ++ ")" ++ nl ++ "AS (" ++ tail.
Proof.
  intros w id version options train_x train_y eval_x eval_y Hno Hcol Hlabels w'.
  assert (Hmethod : Py.get options "data_split_method" = None).
  { apply get_none_not_in. intros Hin. exact (Hno _ Hin eq_refl). }
  assert (Hkw :
    kwargs (self (snd (instantiate_model id version options w)))
    = Some (options ++ [ ("data_split_method", VStr "CUSTOM");
                         ("data_split_col", VStr "is_eval") ])%list).
  { rewrite instantiate_model_run, (split_method_absent options Hno).
    cbn [snd self kwargs].
    rewrite (set_absent _ _ _ Hmethod).
    rewrite set_absent by (rewrite (get_app_absent _ _ _ Hcol); reflexivity).
    now rewrite <- app_assoc. }
  assert (Hpath : exists path,
    sql_model_path (self (snd (instantiate_model id version options w)))
    = Some path).
  { rewrite instantiate_model_run. eexists. reflexivity. }
  destruct Hpath as [path Hpath].
  assert (Hsub :
    submitted (snd (instantiate_model id version options w)) = submitted w).
  { now rewrite instantiate_model_run. }
  assert (Hset :
    Py.set (options ++ [ ("data_split_method", VStr "CUSTOM");
                         ("data_split_col", VStr "is_eval") ])%list
      "input_label_cols" (VList (columns train_y))
    = (options ++ [ ("data_split_method", VStr "CUSTOM");
                    ("data_split_col", VStr "is_eval");
                    ("input_label_cols", VList (columns train_y)) ])%list).
  { rewrite set_absent by (rewrite (get_app_absent _ _ _ Hlabels); reflexivity).
    now rewrite <- app_assoc. }
  subst w'. rewrite (fit_run _ _ _ _ _ _ _ Hkw Hpath).
  cbn [snd self submitted kwargs with_kwargs]. rewrite Hset, Hsub.
  split; [reflexivity |].
  eexists. exists (nl ++ "CREATE OR REPLACE MODEL `" ++ path ++ "`" ++ nl).
  eexists. split; [reflexivity |].
  cbn [sql fit_job]. unfold create_model_text.
  rewrite Hset, (map_ext _ _ option_entry_rendered), map_app.
  repeat rewrite append_assoc. reflexivity.
Qed.

End AfterInstantiate.

Lemma predict_after_instantiate_model_raises_key_error_witness :
  predict Sample.select_query VNone Sample.warehouse Sample.eval_x
    (snd (instantiate_model (VStr "churn") (VInt 4) Sample.options
            Sample.fitted))
  = (inl (KeyError "input_label_cols"),
     snd (instantiate_model (VStr "churn") (VInt 4) Sample.options
            Sample.fitted)).
Proof.
  exact (@predict_after_instantiate_model_raises_key_error
           Sample.select_query VNone Sample.warehouse Sample.fitted
           (VStr "churn") (VInt 4) Sample.options Sample.eval_x eq_refl).
Defined.

Lemma instantiate_then_fit_orders_options_witness :
  let w' := snd (fit Sample.select_query Sample.warehouse
                   Sample.train_x Sample.train_y Sample.eval_x Sample.eval_y
                   (snd (instantiate_model (VStr "churn") (VInt 3)
                           Sample.options Sample.fresh))) in
  kwargs (self w') = Some Sample.fitted_kwargs /\
  exists job head tail,
    submitted w' = [job] /\
    sql job =
      head ++ "OPTIONS (" ++ nl
      ++ join ("," ++ nl)
           [ "model_type='boosted_tree'"; "max_iterations=50";
             "early_stop=True"; "data_split_method='CUSTOM'";
             "data_split_col='is_eval'"; "input_label_cols=['y']" ]
      ++ ")" ++ nl ++ "AS (" ++ tail.
Proof.
  refine (@instantiate_then_fit_orders_options
            Sample.select_query Sample.warehouse Sample.fresh
            (VStr "churn") (VInt 3) Sample.options
            Sample.train_x Sample.train_y Sample.eval_x Sample.eval_y
            _ eq_refl eq_refl).
  simpl. intros key [H | [H | [H | []]]]; subst key; vm_compute; discriminate.
Defined.

(** ** What the operations touch *)

Section Frames.

Variable get_select_query : BigQueryLocation -> bool -> string.
Variable default_limit : value.
Variable warehouse : list Job -> Job -> exn + QueryJob.

(** [fit] on an adapter that has a configuration and no model path:
    the labels are stored, then [self.sql_model_path] raises. *)
Lemma fit_without_path_run (w : World) (kw : dict)
  (train_x train_y eval_x eval_y : BigQueryLocation) :
  kwargs (self w) = Some kw ->
  sql_model_path (self w) = None ->
  fit get_select_query warehouse train_x train_y eval_x eval_y w
  = (inl (AttributeError "sql_model_path"),
     {| self :=
          with_kwargs (Py.set kw "input_label_cols" (VList (columns train_y)))
            (self w);
        submitted := submitted w |}).
Proof.
  intros Hkw Hpath. unfold fit, kwargs_setitem, bind, getattr, setattr.
  rewrite Hkw. cbn [self kwargs with_kwargs sql_model_path].
  rewrite Hpath. reflexivity.
Qed.

(** Everything [predict] can do: raise before anything is submitted,
    the world untouched, or submit one prediction job and leave the
    adapter as it was. *)
Lemma predict_outcomes (w : World) (data : BigQueryLocation) :
  (exists e,
      predict get_select_query default_limit warehouse data w = (inl e, w)) \/
  (exists path target,
      snd (predict get_select_query default_limit warehouse data w)
      = {| self := self w;
           submitted :=
             submitted w ++ [predict_job get_select_query path data target] |}).
Proof.
  destruct (kwargs (self w)) as [kw|] eqn:Hkw.
  - destruct (Py.get kw "input_label_cols") as [label_cols|] eqn:Hget.
    + destruct (subscript0 label_cols) as [e|target] eqn:Hsub.
      * left. exists e. unfold predict, kwargs_getitem, bind, getattr.
        rewrite Hkw, Hget. unfold ret, lift. now rewrite Hsub.
      * destruct (sql_model_path (self w)) as [path|] eqn:Hpath.
        -- right. exists path, target.
           now rewrite (predict_run _ _ _ w data Hkw Hget Hsub Hpath).
        -- left. eexists. unfold predict, kwargs_getitem, bind, getattr.
           rewrite Hkw, Hget. unfold ret, lift. rewrite Hsub, Hpath.
           reflexivity.
    + left. eexists. unfold predict, kwargs_getitem, bind, getattr.
      rewrite Hkw, Hget. reflexivity.
  - left. eexists. unfold predict, kwargs_getitem, bind, getattr.
    rewrite Hkw. reflexivity.
Qed.

Lemma get_train_metrics_outcomes (w : World) :
  get_train_metrics warehouse w = (inl (AttributeError "sql_model_path"), w) \/
  (exists path,
      snd (get_train_metrics warehouse w)
      = {| self := self w;
           submitted := submitted w ++ [train_metric_job path] |}).
Proof.
  destruct (sql_model_path (self w)) as [path|] eqn:Hpath.
  - right. exists path. now rewrite (get_train_metrics_run warehouse w Hpath).
  - left. unfold get_train_metrics, bind, getattr. now rewrite Hpath.
Qed.

(** The configuration after [fit], whatever the outcome. *)
Lemma fit_changes_only_labels_aux (w : World)
  (train_x train_y eval_x eval_y : BigQueryLocation) :
  match kwargs (self w) with
  | None =>
      kwargs (self (snd (fit get_select_query warehouse
                           train_x train_y eval_x eval_y w))) = None
  | Some kw =>
      kwargs (self (snd (fit get_select_query warehouse
                           train_x train_y eval_x eval_y w)))
      = Some (Py.set kw "input_label_cols" (VList (columns train_y)))
  end.
Proof.
  destruct (kwargs (self w)) as [kw|] eqn:Hkw.
  - destruct (sql_model_path (self w)) as [path|] eqn:Hpath.
    + now rewrite (fit_run _ _ _ _ _ _ _ Hkw Hpath).
    + now rewrite (fit_without_path_run _ _ _ _ _ Hkw Hpath).
  - now rewrite (fit_without_kwargs _ _ _ _ _ _ _ Hkw).
Qed.

(** X4. Whatever the adapter and the outcome, [fit] assigns to no
    attribute but [kwargs]: project, dataset, model id, version and
    model path are after [fit] what they were before, and the
    configuration, when there is one, differs by the
    [input_label_cols] entry alone. *)
Theorem fit_changes_only_the_labels :
  forall (w : World) (train_x train_y eval_x eval_y : BigQueryLocation),
    let s' := self (snd (fit get_select_query warehouse
                           train_x train_y eval_x eval_y w)) in
    project s' = project (self w) /\
    dataset s' = dataset (self w) /\
    model_id s' = model_id (self w) /\
    model_version s' = model_version (self w) /\
    model_id_version s' = model_id_version (self w) /\
    sql_model_path s' = sql_model_path (self w) /\
    match kwargs (self w) with
    | None => kwargs s' = None
    | Some kw =>
        kwargs s'
        = Some (Py.set kw "input_label_cols" (VList (columns train_y)))
    end.
Proof.
  intros w train_x train_y eval_x eval_y s'. subst s'.
  destruct (kwargs (self w)) as [kw|] eqn:Hkw.
  - destruct (sql_model_path (self w)) as [path|] eqn:Hpath.
    + rewrite (fit_run _ _ _ _ _ _ _ Hkw Hpath). cbn. rewrite Hpath.
      repeat split.
    + rewrite (fit_without_path_run _ _ _ _ _ Hkw Hpath). cbn. rewrite Hpath.
      repeat split.
  - rewrite (fit_without_kwargs _ _ _ _ _ _ _ Hkw). cbn.
    repeat split. exact Hkw.
Qed.

(** X5. [predict] and [get_train_metrics] only read the adapter:
    whatever they return or raise, every attribute is after the call
    what it was before. *)
Theorem predict_and_get_train_metrics_keep_the_adapter :
  forall (w : World) (data : BigQueryLocation),
    self (snd (predict get_select_query default_limit warehouse data w))
    = self w /\
    self (snd (get_train_metrics warehouse w)) = self w.
Proof.
  intros w data. split.
  - destruct (predict_outcomes w data) as [[e H] | [path [target H]]];
      rewrite H; reflexivity.
  - destruct (get_train_metrics_outcomes w) as [H | [path H]];
      rewrite H; reflexivity.
Qed.

End Frames.

(** ** Failures of the warehouse and of the caller *)

Section Failures.

Variable get_select_query : BigQueryLocation -> bool -> string.
Variable default_limit : value.
Variable warehouse : list Job -> Job -> exn + QueryJob.

(** X6. When the warehouse refuses the training job, [fit] raises
    the exception of the warehouse as it is, after one submission and
    no second try, and the label columns stay stored: the assignment
    comes before the job. *)
Theorem fit_job_error_propagates :
  forall (w : World) (kw : dict) (path : string) (e : exn)
         (train_x train_y eval_x eval_y : BigQueryLocation),
    kwargs (self w) = Some kw ->
    sql_model_path (self w) = Some path ->
    warehouse (submitted w)
      (fit_job get_select_query kw path train_x train_y eval_x eval_y)
    = inl e ->
    let r := fit get_select_query warehouse train_x train_y eval_x eval_y w in
    fst r = inl e /\
    submitted (snd r)
    = (submitted w
       ++ [fit_job get_select_query kw path train_x train_y eval_x eval_y])%list
    /\
    exists kw',
      kwargs (self (snd r)) = Some kw' /\
      Py.get kw' "input_label_cols" = Some (VList (columns train_y)).
Proof.
  intros w kw path e train_x train_y eval_x eval_y Hkw Hpath Hjob r.
  subst r. rewrite (fit_run _ _ _ _ _ _ _ Hkw Hpath), Hjob.
  cbn [fst snd self submitted]. split; [reflexivity |].
  split; [reflexivity |].
  eexists. split; [reflexivity | apply get_set_same].
Qed.


(** X8. Before [instantiate_model] the three operations that need
    the configuration or the model path raise [AttributeError] for the
    attribute they read first, submit nothing and leave the adapter
    as it was. *)
Theorem operations_before_instantiate_model_raise :
  forall (w : World) (train_x train_y eval_x eval_y data : BigQueryLocation),
    kwargs (self w) = None ->
    sql_model_path (self w) = None ->
    fit get_select_query warehouse train_x train_y eval_x eval_y w
    = (inl (AttributeError "kwargs"), w) /\
    predict get_select_query default_limit warehouse data w
    = (inl (AttributeError "kwargs"), w) /\
    get_train_metrics warehouse w
    = (inl (AttributeError "sql_model_path"), w).
Proof.
  intros w train_x train_y eval_x eval_y data Hkw Hpath.
  split; [| split].
  - exact (fit_without_kwargs _ _ _ _ _ _ _ Hkw).
  - unfold predict, kwargs_getitem, bind, getattr. now rewrite Hkw.
  - unfold get_train_metrics, bind, getattr. now rewrite Hpath.
Qed.

(** X9. After a [fit] whose label descriptor has no column,
    [predict] finds no first entry: it raises [IndexError] and
    submits nothing. *)
Theorem predict_after_fit_without_label_column :
  forall (w : World) (kw : dict)
         (train_x train_y eval_x eval_y data : BigQueryLocation),
    kwargs (self w) = Some kw ->
    columns train_y = [] ->
    let w' := snd (fit get_select_query warehouse
                     train_x train_y eval_x eval_y w) in
    predict get_select_query default_limit warehouse data w'
    = (inl IndexError, w').
Proof.
  intros w kw train_x train_y eval_x eval_y data Hkw Hcols w'.
  assert (Hkw' : kwargs (self w')
                 = Some (Py.set kw "input_label_cols" (VList []))).
  { pose proof (fit_changes_only_labels_aux get_select_query warehouse
                  w train_x train_y eval_x eval_y) as H.
    subst w'. rewrite Hkw, Hcols in H. exact H. }
  unfold predict, kwargs_getitem, bind, getattr.
  rewrite Hkw', get_set_same. reflexivity.
Qed.

End Failures.

Lemma fit_job_error_propagates_witness :
  let r := fit Sample.select_query Sample.broken_warehouse
             Sample.train_x Sample.train_y Sample.eval_x Sample.eval_y
             Sample.instantiated in
  fst r = inl (JobError "403 Access Denied") /\
  submitted (snd r)
  = [ fit_job Sample.select_query Sample.instantiated_kwargs "proj.ds.churn_3"
        Sample.train_x Sample.train_y Sample.eval_x Sample.eval_y ] /\
  exists kw',
    kwargs (self (snd r)) = Some kw' /\
    Py.get kw' "input_label_cols" = Some (VList ["y"]).
Proof.
  exact (@fit_job_error_propagates
           Sample.select_query Sample.broken_warehouse Sample.instantiated
           Sample.instantiated_kwargs "proj.ds.churn_3"
           (JobError "403 Access Denied")
           Sample.train_x Sample.train_y Sample.eval_x Sample.eval_y
           eq_refl eq_refl eq_refl).
Defined.


Lemma operations_before_instantiate_model_raise_witness :
  fit Sample.select_query Sample.warehouse
    Sample.train_x Sample.train_y Sample.eval_x Sample.eval_y Sample.fresh
  = (inl (AttributeError "kwargs"), Sample.fresh) /\
  predict Sample.select_query VNone Sample.warehouse Sample.eval_x Sample.fresh
  = (inl (AttributeError "kwargs"), Sample.fresh) /\
  get_train_metrics Sample.warehouse Sample.fresh
  = (inl (AttributeError "sql_model_path"), Sample.fresh).
Proof.
  exact (@operations_before_instantiate_model_raise
           Sample.select_query VNone Sample.warehouse Sample.fresh
           Sample.train_x Sample.train_y Sample.eval_x Sample.eval_y
           Sample.eval_x eq_refl eq_refl).
Defined.

Lemma predict_after_fit_without_label_column_witness :
  let w' := snd (fit Sample.select_query Sample.warehouse
                   Sample.train_x Sample.no_label Sample.eval_x Sample.no_label
                   Sample.instantiated) in
  predict Sample.select_query VNone Sample.warehouse Sample.eval_x w'
  = (inl IndexError, w').
Proof.
  exact (@predict_after_fit_without_label_column
           Sample.select_query VNone Sample.warehouse Sample.instantiated
           Sample.instantiated_kwargs
           Sample.train_x Sample.no_label Sample.eval_x Sample.no_label
           Sample.eval_x eq_refl eq_refl).
Defined.

(** ** Operations one after the other *)

Section Sequences.

Variable get_select_query : BigQueryLocation -> bool -> string.
Variable default_limit : value.
Variable warehouse : list Job -> Job -> exn + QueryJob.

(** X10. A [fit] that follows another [fit] behaves as if the first
    had not been: the adapter it leaves, and the job it submits, are
    those of the second [fit] alone.  The labels of the first are
    replaced, in the place they had in the configuration. *)
Theorem fit_after_fit_is_the_second_fit :
  forall (w : World) (kw : dict) (path : string)
         (train_x0 train_y0 eval_x0 eval_y0 : BigQueryLocation)
         (train_x train_y eval_x eval_y : BigQueryLocation),
    kwargs (self w) = Some kw ->
    sql_model_path (self w) = Some path ->
    let w0 := snd (fit get_select_query warehouse
                     train_x0 train_y0 eval_x0 eval_y0 w) in
    self (snd (fit get_select_query warehouse train_x train_y eval_x eval_y w0))
    = self (snd (fit get_select_query warehouse
                   train_x train_y eval_x eval_y w)) /\
    exists job,
      submitted (snd (fit get_select_query warehouse
                        train_x train_y eval_x eval_y w0))
      = (submitted w0 ++ [job])%list /\
      submitted (snd (fit get_select_query warehouse
                        train_x train_y eval_x eval_y w))
      = (submitted w ++ [job])%list.
Proof.
  intros w kw path train_x0 train_y0 eval_x0 eval_y0
         train_x train_y eval_x eval_y Hkw Hpath w0.
  assert (Hw0 :
    w0 = {| self :=
              with_kwargs
                (Py.set kw "input_label_cols" (VList (columns train_y0)))
                (self w);
            submitted :=
              submitted w
              ++ [fit_job get_select_query kw path
                    train_x0 train_y0 eval_x0 eval_y0] |}).
  { subst w0. now rewrite (fit_run _ _ _ _ _ _ _ Hkw Hpath). }
  assert (Hkw0 : kwargs (self w0)
                 = Some (Py.set kw "input_label_cols"
                           (VList (columns train_y0))))
    by (rewrite Hw0; reflexivity).
  assert (Hpath0 : sql_model_path (self w0) = Some path)
    by (rewrite Hw0; exact Hpath).
  rewrite (fit_run _ _ _ _ _ _ _ Hkw0 Hpath0).
  rewrite (fit_run _ _ _ _ _ _ _ Hkw Hpath).
  cbn [snd self submitted]. unfold fit_job. rewrite set_set. split.
  - rewrite Hw0. reflexivity.
  - eexists. split; reflexivity.
Qed.


End Sequences.

Lemma fit_after_fit_is_the_second_fit_witness :
  let w0 := snd (fit Sample.select_query Sample.warehouse
                   Sample.eval_x Sample.no_label Sample.train_x Sample.no_label
                   Sample.instantiated) in
  self (snd (fit Sample.select_query Sample.warehouse
               Sample.train_x Sample.train_y Sample.eval_x Sample.eval_y w0))
  = self Sample.fitted /\
  exists job,
    submitted (snd (fit Sample.select_query Sample.warehouse
                      Sample.train_x Sample.train_y Sample.eval_x Sample.eval_y
                      w0))
    = (submitted w0 ++ [job])%list /\
    submitted Sample.fitted = [job].
Proof.
  exact (@fit_after_fit_is_the_second_fit
           Sample.select_query Sample.warehouse Sample.instantiated
           Sample.instantiated_kwargs "proj.ds.churn_3"
           Sample.eval_x Sample.no_label Sample.train_x Sample.no_label
           Sample.train_x Sample.train_y Sample.eval_x Sample.eval_y
           eq_refl eq_refl).
Defined.


(** ** Rows that are not iteration rows *)

Lemma metrics_struct_missing_field (row : Row) (name : string) :
  first_missing_field row = Some name ->
  metrics_struct row = inl (AttributeError name).
Proof.
  unfold first_missing_field, training_fields, has_field, metrics_struct,
    row_attr.
  cbn [find].
  destruct (Py.get row "loss"); cbn [negb]; [| now intros [= <-]].
  destruct (Py.get row "eval_loss"); cbn [negb]; [| now intros [= <-]].
  destruct (Py.get row "duration_ms"); cbn [negb]; [| now intros [= <-]].
  destruct (Py.get row "learning_rate"); cbn [negb]; [| now intros [= <-]].
  destruct (Py.get row "iteration"); cbn [negb]; [| now intros [= <-]].
  discriminate.
Qed.

Lemma collect_metrics_stops (good rest : list Row) (bad : Row) (name : string) :
  forallb iteration_row good = true ->
  first_missing_field bad = Some name ->
  forall acc,
    collect_metrics (good ++ bad :: rest) acc = inl (AttributeError name).
Proof.
  intros Hgood Hbad.
  induction good as [|row good IH]; intros acc.
  - cbn [app collect_metrics].
    now rewrite (metrics_struct_missing_field _ Hbad).
  - cbn [forallb] in Hgood. apply andb_true_iff in Hgood.
    destruct Hgood as [Hrow Hrest].
    destruct (metrics_struct_of_iteration_row row Hrow) as [m [Hm _]].
    cbn. rewrite Hm. apply IH. exact Hrest.
Qed.

Section RaggedRows.

Variable warehouse : list Job -> Job -> exn + QueryJob.

(** X12. When a row of the diagnostics lacks one of the five fields,
    [get_train_metrics] raises [AttributeError] for the first field
    that row lacks, in the order [loss], [eval_loss], [duration_ms],
    [learning_rate], [iteration], and returns nothing of the rows
    before it. *)
Theorem get_train_metrics_stops_at_a_missing_field :
  forall (w : World) (path : string) (query_job : QueryJob)
         (good rest : list Row) (bad : Row) (name : string),
    sql_model_path (self w) = Some path ->
    warehouse (submitted w) (train_metric_job path) = inr query_job ->
    result query_job = (good ++ bad :: rest)%list ->
    forallb iteration_row good = true ->
    first_missing_field bad = Some name ->
    fst (get_train_metrics warehouse w) = inl (AttributeError name).
Proof.
  intros w path query_job good rest bad name Hpath Hjob Hrows Hgood Hbad.
  rewrite (get_train_metrics_run warehouse w Hpath), Hjob. cbn [fst].
  rewrite Hrows. exact (collect_metrics_stops good rest bad Hgood Hbad []).
Qed.

End RaggedRows.

Lemma get_train_metrics_stops_at_a_missing_field_witness :
  fst (get_train_metrics Sample.ragged_warehouse Sample.fitted)
  = inl (AttributeError "eval_loss").
Proof.
  exact (@get_train_metrics_stops_at_a_missing_field
           Sample.ragged_warehouse Sample.fitted "proj.ds.churn_3"
           Sample.ragged Sample.rows [] Sample.short_row "eval_loss"
           eq_refl eq_refl eq_refl eq_refl eq_refl).
Defined.

(** ** From a client's calls to the statements *)

Section Sessions.

Variable get_select_query : BigQueryLocation -> bool -> string.
Variable default_limit : value.
Variable warehouse : list Job -> Job -> exn + QueryJob.

(** X13. The model that the statements name is the one
    [instantiate_model] composed: after [instantiate_model], whatever
    the adapter was, [get_train_metrics] asks for the training
    information of [project.dataset.id_version], and [fit] creates or
    replaces the model of that same path, with project, dataset, id
    and version as they print. *)
Theorem statements_name_the_instantiated_model :
  forall (w : World) (id version : value) (options : dict)
         (train_x train_y eval_x eval_y : BigQueryLocation),
    let w0 := snd (instantiate_model id version options w) in
    let path := str (project (self w)) ++ "." ++ str (dataset (self w))
                ++ "." ++ str id ++ "_" ++ str version in
    submitted (snd (get_train_metrics warehouse w0))
    = (submitted w
       ++ [ {| sql := nl ++ "SELECT * FROM ML.TRAINING_INFO(MODEL `" ++ path
                      ++ "`) ORDER BY iteration" ++ nl ++ "    ";
               prefix := "mlflow_model_" |} ])%list /\
    exists job tail,
      submitted (snd (fit get_select_query warehouse
                        train_x train_y eval_x eval_y w0))
      = (submitted w ++ [job])%list /\
      sql job = nl ++ "CREATE OR REPLACE MODEL `" ++ path ++ "`" ++ tail.
Proof.
  intros w id version options train_x train_y eval_x eval_y w0 path.
  assert (Hpath : sql_model_path (self w0) = Some path).
  { subst w0 path. rewrite instantiate_model_run. reflexivity. }
  assert (Hsub : submitted w0 = submitted w).
  { subst w0. now rewrite instantiate_model_run. }
  destruct (instantiate_model_labels w id version options) as [kw [Hkw _]].
  fold w0 in Hkw.
  split.
  - rewrite (get_train_metrics_run warehouse w0 Hpath).
    cbn [snd submitted]. rewrite Hsub. reflexivity.
  - rewrite (fit_run _ _ _ _ _ _ _ Hkw Hpath). cbn [snd submitted].
    rewrite Hsub. eexists. eexists. split; [reflexivity |].
    cbn [sql fit_job]. unfold create_model_text. reflexivity.
Qed.

(** One call: the jobs already submitted stay, and at most one is
    added, none by a call that is not [submitting]. *)
Lemma run_call_adds_at_most_one (c : call) (w : World) :
  exists jobs,
    submitted (run_call get_select_query default_limit warehouse c w)
    = (submitted w ++ jobs)%list /\
    (List.length jobs <= if submitting c then 1 else 0)%nat.
Proof.
  destruct c as [id version options | tx ty ex ey | data | path | path |];
    cbn [run_call submitting].
  - exists []. rewrite instantiate_model_run. cbn.
    now rewrite app_nil_r.
  - destruct (kwargs (self w)) as [kw|] eqn:Hkw.
    + destruct (sql_model_path (self w)) as [p|] eqn:Hpath.
      * rewrite (fit_run _ _ _ _ _ _ _ Hkw Hpath).
        eexists. split; [reflexivity | cbn; lia].
      * rewrite (fit_without_path_run _ _ _ _ _ _ _ Hkw Hpath).
        exists []. cbn. rewrite app_nil_r. split; [reflexivity | lia].
    + rewrite (fit_without_kwargs _ _ _ _ _ _ _ Hkw).
      exists []. cbn. rewrite app_nil_r. split; [reflexivity | lia].
  - destruct (predict_outcomes get_select_query default_limit warehouse w data)
      as [[e H] | [p [target H]]]; rewrite H.
    + exists []. cbn. rewrite app_nil_r. split; [reflexivity | lia].
    + eexists. split; [reflexivity | cbn; lia].
  - exists []. cbn. now rewrite app_nil_r.
  - exists []. cbn. now rewrite app_nil_r.
  - destruct (get_train_metrics_outcomes warehouse w) as [H | [p H]];
      rewrite H.
    + exists []. cbn. rewrite app_nil_r. split; [reflexivity | lia].
    + eexists. split; [reflexivity | cbn; lia].
Qed.

(** X14. Over any sequence of calls, the jobs submitted before stay
    where they were, and the adapter submits at most one job for each
    call of [fit], [predict] or [get_train_metrics] and none for
    [instantiate_model], [save] and [load]: no call is retried and no
    job is withdrawn. *)
Theorem calls_submit_at_most_one_job_each :
  forall (calls : list call) (w : World),
    exists jobs,
      submitted (run_calls get_select_query default_limit warehouse calls w)
      = (submitted w ++ jobs)%list /\
      (List.length jobs <= List.length (filter submitting calls))%nat.
Proof.
  induction calls as [|c calls IH]; intros w.
  - exists []. cbn. now rewrite app_nil_r.
  - cbn [run_calls fold_left].
    destruct (run_call_adds_at_most_one c w) as [first [Hfirst Hlen]].
    destruct (IH (run_call get_select_query default_limit warehouse c w))
      as [more [Hmore Hlen']].
    exists (first ++ more)%list. split.
    + unfold run_calls in Hmore. rewrite Hmore, Hfirst.
      now rewrite <- app_assoc.
    + rewrite length_app. cbn [filter].
      destruct (submitting c); cbn [List.length]; lia.
Qed.

End Sessions.

(** ** Options the caller gives and the adapter also writes *)

Lemma keys_set_present (d : dict) (k : string) (v v' : value) :
  Py.get d k = Some v' -> keys (Py.set d k v) = keys d.
Proof.
  induction d as [|[k0 v0] d IH]; simpl; [discriminate |].
  destruct (String.eqb k k0); simpl; [reflexivity |].
  intros H. now rewrite IH.
Qed.

Lemma get_app_present (d d' : dict) (k : string) (v : value) :
  Py.get d k = Some v -> Py.get (d ++ d')%list k = Some v.
Proof.
  induction d as [|[k0 v0] d IH]; simpl; [discriminate |].
  destruct (String.eqb k k0); [trivial | exact IH].
Qed.

(** X15. When the caller gives [data_split_col] and no split method,
    [instantiate_model] overwrites the caller's value with ['is_eval']
    where the key stands, and adds [data_split_method] alone, after
    the caller's keys. *)
Theorem instantiate_model_overwrites_split_col :
  forall (w : World) (id version : value) (options : dict) (given : value),
    (forall key, In key (keys options) -> lower key <> "data_split_method") ->
    Py.get options "data_split_col" = Some given ->
    exists kw,
      kwargs (self (snd (instantiate_model id version options w))) = Some kw /\
      keys kw = (keys options ++ ["data_split_method"])%list /\
      Py.get kw "data_split_col" = Some (VStr "is_eval").
Proof.
  intros w id version options given Hno Hcol.
  assert (Hmethod : Py.get options "data_split_method" = None).
  { apply get_none_not_in. intros Hin. exact (Hno _ Hin eq_refl). }
  rewrite instantiate_model_run, (split_method_absent options Hno).
  cbn [snd self kwargs]. eexists. split; [reflexivity |]. split.
  - rewrite (set_absent _ _ _ Hmethod).
    rewrite (keys_set_present _ _ _
               (get_app_present _ [("data_split_method", VStr "CUSTOM")] _
                  Hcol)).
    unfold keys. now rewrite map_app.
  - apply get_set_same.
Qed.

Lemma instantiate_model_overwrites_split_col_witness :
  exists kw,
    kwargs (self (snd (instantiate_model (VStr "churn") (VInt 3)
                         [ ("data_split_col", VStr "fold");
                           ("model_type", VStr "linear_reg") ]
                         Sample.fresh))) = Some kw /\
    keys kw = ["data_split_col"; "model_type"; "data_split_method"] /\
    Py.get kw "data_split_col" = Some (VStr "is_eval").
Proof.
  refine (@instantiate_model_overwrites_split_col
            Sample.fresh (VStr "churn") (VInt 3)
            [ ("data_split_col", VStr "fold");
              ("model_type", VStr "linear_reg") ]
            (VStr "fold") _ eq_refl).
  simpl. intros key [H | [H | []]]; subst key; vm_compute; discriminate.
Defined.

Section CallerLabels.

Variable get_select_query : BigQueryLocation -> bool -> string.
Variable default_limit : value.
Variable warehouse : list Job -> Job -> exn + QueryJob.

(** X16. What [predict] needs is the stored labels, not a [fit]:
    when the caller gives [input_label_cols] as a list with a first
    entry among the options, [predict] right after
    [instantiate_model] gets past the lookup and submits the
    prediction statement for that first entry and the instantiated
    model. *)
Theorem predict_with_labels_given_as_option :
  forall (w : World) (id version : value) (options : dict)
         (target : string) (others : list string) (data : BigQueryLocation),
    Py.get options "input_label_cols" = Some (VList (target :: others)) ->
    let w0 := snd (instantiate_model id version options w) in
    let path := str (project (self w)) ++ "." ++ str (dataset (self w))
                ++ "." ++ str id ++ "_" ++ str version in
    submitted (snd (predict get_select_query default_limit warehouse data w0))
    = (submitted w
       ++ [predict_job get_select_query path data (VStr target)])%list.
Proof.
  intros w id version options target others data Hgiven w0 path.
  destruct (instantiate_model_labels w id version options) as [kw [Hkw Hget]].
  fold w0 in Hkw. rewrite Hgiven in Hget.
  assert (Hpath : sql_model_path (self w0) = Some path).
  { subst w0 path. rewrite instantiate_model_run. reflexivity. }
  assert (Hsubmitted : submitted w0 = submitted w).
  { subst w0. now rewrite instantiate_model_run. }
  assert (Hsub : subscript0 (VList (target :: others)) = inr (VStr target))
    by reflexivity.
  rewrite (predict_run _ _ _ w0 data Hkw Hget Hsub Hpath).
  cbn [snd submitted]. rewrite Hsubmitted. reflexivity.
Qed.

End CallerLabels.

Lemma predict_with_labels_given_as_option_witness :
  submitted
    (snd (predict Sample.select_query VNone Sample.warehouse Sample.eval_x
            (snd (instantiate_model (VStr "churn") (VInt 3)
                    [ ("model_type", VStr "linear_reg");
                      ("input_label_cols", VList ["label"; "weight"]) ]
                    Sample.fresh))))
  = [ predict_job Sample.select_query "proj.ds.churn_3" Sample.eval_x
        (VStr "label") ].
Proof.
  exact (@predict_with_labels_given_as_option
           Sample.select_query VNone Sample.warehouse Sample.fresh
           (VStr "churn") (VInt 3)
           [ ("model_type", VStr "linear_reg");
             ("input_label_cols", VList ["label"; "weight"]) ]
           "label" ["weight"] Sample.eval_x eq_refl).
Defined.
